(** * Marstek Venus Modbus: the configuration flow

    A shallow embedding of [custom_components/marstek_modbus/config_flow.py]:
    the connection probe [async_test_modbus_connection], the setup step
    [MarstekConfigFlow.async_step_user] and the options step
    [MarstekOptionsFlow.async_step_init].

    Python values are modelled as follows.
    - [int] is [Z]; [str] is [string] (a sequence of 8-bit characters,
      [str.lower] acting on the ASCII letters).
    - [None]-or-value is [option].
    - A [dict] with string keys is a [gmap string _]; a dict that mixes
      integer and string values is kept as two maps, one per value type.
    - Calls that leave the process (name resolution, the Modbus client, the
      coordinator) are answered by an oracle and recorded, in order, in a
      trace of events.
    - Exceptions are values of the [Exception] hierarchy; a computation
      either returns or raises, and [try]/[except]/[finally] are
      combinators over such computations. *)

From stdpp Require Import base strings list gmap.
From Stdlib Require Import ZArith Ascii String Lia.

Local Open Scope string_scope.
Local Open Scope Z_scope.
Local Open Scope list_scope.

(** ** Strings *)

Module Str.

(** [str.lower] on one character: the ASCII capitals move down by 32. *)
Definition lower_ascii (c : ascii) : ascii :=
  let n := nat_of_ascii c in
  if (Nat.leb 65 n && Nat.leb n 90)%bool then ascii_of_nat (n + 32) else c.

Fixpoint lower (s : string) : string :=
  match s with
  | EmptyString => EmptyString
  | String c t => String (lower_ascii c) (lower t)
  end.

Fixpoint startswith (p s : string) : bool :=
  match p, s with
  | EmptyString, _ => true
  | String _ _, EmptyString => false
  | String a p', String b s' => (Ascii.eqb a b && startswith p' s')%bool
  end.

(** [needle in hay] for two strings: substring test. *)
Fixpoint contains (needle hay : string) : bool :=
  (startswith needle hay
   || match hay with
      | EmptyString => false
      | String _ t => contains needle t
      end)%bool.

End Str.

(** ** Exceptions *)

(** The exception classes the handlers of the file name.  [TimeoutError] is
    [asyncio.TimeoutError]; [gaierror] is [socket.gaierror]. *)
Inductive py_class :=
| Exception
| OSError
| ConnectionError
| TimeoutError
| gaierror
| TypeError.

#[global] Instance py_class_eq_dec : EqDecision py_class.
Proof. solve_decision. Defined.

(** A raised exception: the classes, among those above, it is an instance
    of (its own class first), and [str(err)]. *)
Record py_exception := {
  exc_mro : list py_class;
  exc_str : string
}.

(** [isinstance(e, c)]; every modelled exception is an [Exception]. *)
Definition isinstance (e : py_exception) (c : py_class) : bool :=
  match c with
  | Exception => true
  | _ => bool_decide (c ∈ exc_mro e)
  end.

(** [ConnectionError(msg)], a subclass of [OSError]. *)
Definition new_ConnectionError (msg : string) : py_exception :=
  {| exc_mro := [ConnectionError; OSError]; exc_str := msg |}.

(** ** Computations: trace, return or raise *)

Inductive outcome (A : Type) :=
| Returned (a : A)
| Raised (e : py_exception).
Arguments Returned {A} a.
Arguments Raised {A} e.

(** Calls that leave the process. *)
Inductive event :=
| EvGetHostByName (host : option string)
| EvConnect (host : option string) (port : Z)
| EvReadHoldingRegisters (address count slave : Z)
| EvClose.

#[global] Instance event_eq_dec : EqDecision event.
Proof. solve_decision. Defined.

Definition M (A : Type) : Type := list event → outcome A * list event.

Definition ret {A} (a : A) : M A := λ t, (Returned a, t).

Definition raise {A} (e : py_exception) : M A := λ t, (Raised e, t).

Definition bind {A B} (m : M A) (k : A → M B) : M B :=
  λ t, match m t with
       | (Returned a, t') => k a t'
       | (Raised e, t') => (Raised e, t')
       end.

Notation "'let*' x ':=' m 'in' k" := (bind m (λ x, k))
  (at level 10, x name, m at level 100, k at level 200, only parsing).

(** An external call: its event is recorded, then it returns or raises as
    the oracle says. *)
Definition call {A} (ev : event) (answer : outcome A) : M A :=
  λ t, (answer, t ++ [ev]).

(** [except (c1, c2, ...) as err: handler]. *)
Record except_clause (A : Type) := Except {
  except_classes : list py_class;
  except_body : py_exception → M A
}.
Arguments Except {A} _ _.
Arguments except_classes {A} _.
Arguments except_body {A} _.

Definition catches {A} (e : py_exception) (h : except_clause A) : bool :=
  existsb (isinstance e) (except_classes h).

(** The first clause that matches runs; an exception no clause matches, or
    one raised by the handler itself, propagates. *)
Fixpoint dispatch {A} (e : py_exception) (hs : list (except_clause A)) : M A :=
  match hs with
  | [] => raise e
  | h :: hs' => if catches e h then except_body h e else dispatch e hs'
  end.

Definition try_except {A} (body : M A) (hs : list (except_clause A)) : M A :=
  λ t, match body t with
       | (Returned a, t') => (Returned a, t')
       | (Raised e, t') => dispatch e hs t'
       end.

(** [try: body finally: cleanup], for a cleanup without [return]: it runs
    on both exits; if it raises, its exception replaces the pending exit. *)
Definition try_finally {A} (body : M A) (cleanup : M unit) : M A :=
  λ t, match body t with
       | (r, t') =>
           match cleanup t' with
           | (Returned _, t'') => (r, t'')
           | (Raised e, t'') => (Raised e, t'')
           end
       end.

(** Running a computation from the empty trace. *)
Definition run {A} (m : M A) : outcome A * list event := m [].
Definition result_of {A} (m : M A) : outcome A := fst (run m).
Definition trace_of {A} (m : M A) : list event := snd (run m).

(** ** The Modbus client and the network *)

(** What [read_holding_registers] hands back, as far as the probe looks at
    it: [rsp_isError] is [None] when the object has no [isError] attribute
    and otherwise the value of [isError()]; [rsp_exception_code] is
    [getattr(result, 'exception_code', None)]. *)
Record response := {
  rsp_isError : option bool;
  rsp_exception_code : option Z
}.

(** The answers of the world outside: name resolution and the three calls
    on [ModbusTcpClient(host=host, port=port, timeout=3)].  A host is what
    [user_input.get(CONF_HOST)] gave, a [str] or [None]; the annotation
    [host: str] of the probe is not enforced by Python.  The read is the
    awaited [asyncio.wait_for(_test_read(), timeout=5.0)], so one of its
    answers is raising [asyncio.TimeoutError]. *)
Record network := {
  net_gethostbyname : option string → outcome unit;
  net_connect : option string → Z → outcome bool;
  net_read_holding_registers :
    option string → Z → Z → Z → Z → outcome (option response);
  net_close : option string → Z → outcome unit
}.

(** ** The probe *)

(** The error keys handed to the flow's [errors] dict; [None] is success. *)
Definition probe_outcome := option string.

Definition Success : probe_outcome := None.
Definition UnitNoResponse : probe_outcome := Some "unit_id_no_response".
Definition PermissionDenied : probe_outcome := Some "permission_denied".
Definition ConnectionRefused : probe_outcome := Some "connection_refused".
Definition TimedOut : probe_outcome := Some "timed_out".
Definition CannotConnect : probe_outcome := Some "cannot_connect".

(** [error_code in [1, 2, 3, 4]], with [error_code] possibly [None]. *)
Definition code_in_1234 (error_code : option Z) : bool :=
  match error_code with
  | Some c => bool_decide (c ∈ [1; 2; 3; 4])
  | None => false
  end.

(** The body of the inner [try]: what the probe makes of the read result. *)
Definition check_result (result : option response) : probe_outcome :=
  match result with
  | None => UnitNoResponse
  | Some r =>
      if (match rsp_isError r with Some b => b | None => false end) then
        if code_in_1234 (rsp_exception_code r) then Success else UnitNoResponse
      else Success
  end.

(** The [except OSError as err] branch: classification by the text of the
    error. *)
Definition classify_oserror (err : py_exception) : probe_outcome :=
  let err_msg := Str.lower (exc_str err) in
  if Str.contains "permission denied" err_msg then PermissionDenied
  else if Str.contains "connection refused" err_msg then ConnectionRefused
  else if (Str.contains "timed out" err_msg || Str.contains "timeout" err_msg)%bool
       then TimedOut
  else CannotConnect.

(** Building the client, [ModbusTcpClient(host=host, port=port, timeout=3)],
    opens nothing and is not recorded; neither are the log lines.  Every path
    through the [try] returns, so the [return None] after it is never
    reached. *)
Definition async_test_modbus_connection
    (net : network) (host : option string) (port unit_id : Z) : M probe_outcome :=
  try_finally
    (try_except
       (let* connected := call (EvConnect host port) (net_connect net host port) in
        if negb connected then raise (new_ConnectionError "Unable to connect")
        else
          try_except
            (let* result := call (EvReadHoldingRegisters 32101 1 unit_id)
                              (net_read_holding_registers net host port 32101 1 unit_id) in
             ret (check_result result))
            [ Except [TimeoutError] (λ _, ret UnitNoResponse);
              Except [Exception] (λ _, ret UnitNoResponse) ])
       [ Except [OSError] (λ err, ret (classify_oserror err));
         Except [Exception] (λ _, ret CannotConnect) ])
    (try_except
       (call EvClose (net_close net host port))
       [ Except [Exception] (λ _, ret tt) ]).

(** ** Constants of [const.py] and of [homeassistant.const] *)

(** [const.py] is not part of the sources at hand: its values are taken as
    parameters.  [DEFAULT_SCAN_INTERVALS] is a dict read at the four rate
    keys. *)
Record constants := {
  DOMAIN : string;
  DEFAULT_PORT : Z;
  DEFAULT_UNIT_ID : Z;
  SUPPORTED_VERSIONS : list string;
  DEFAULT_SCAN_INTERVALS : string → Z
}.

Definition CONF_HOST : string := "host".
Definition CONF_PORT : string := "port".
Definition CONF_CONF_VERSION : string := "conf_version".
Definition CONF_DEVICE_VERSION : string := "device_version".
Definition CONF_UNIT_ID : string := "unit_id".

(** ** Dicts and config entries *)

(** A dict whose values are integers or strings, one map per value type. *)
Record pydict := {
  ints : gmap string Z;
  strs : gmap string string
}.

Record config_entry := {
  entry_id : string;
  data : pydict;
  options : gmap string Z
}.

(** [x or d] for a string-or-None and for an integer-or-None. *)
Definition or_str (x : option string) (d : string) : string :=
  match x with
  | Some s => if bool_decide (s = "") then d else s
  | None => d
  end.

Definition or_int (x : option Z) (d : Z) : Z :=
  match x with
  | Some n => if bool_decide (n = 0) then d else n
  | None => d
  end.

(** ** The setup step *)

(** The defaults a shown form carries for its four fields. *)
Record user_form := {
  form_host : option string;
  form_port : Z;
  form_unit_id : Z;
  form_device_version : string
}.

(** What a step hands back to the flow manager.  [errors] is the dict
    [errors] of the step, which holds the key ["base"] or nothing. *)
Inductive flow_result :=
| ShowForm (step_id : string) (defaults : user_form) (errors : option string)
| Abort (reason : string)
| CreateEntry (title : string) (entry_data : pydict).

(** [not errors["base"]]: [None] and the empty string are falsy. *)
Definition falsy (x : option string) : bool :=
  match x with
  | None => true
  | Some s => bool_decide (s = "")
  end.

(** [entry.data.get(CONF_HOST) == host and entry.data.get(CONF_UNIT_ID) == unit_id] *)
Definition same_host_and_unit (host : option string) (unit_id : Z)
    (entry : config_entry) : bool :=
  (bool_decide (strs (data entry) !! CONF_HOST = host)
   && bool_decide (ints (data entry) !! CONF_UNIT_ID = Some unit_id))%bool.

Module MarstekConfigFlow.
Section WithConstants.

Variable K : constants.

(** [SUPPORTED_VERSIONS[0]] *)
Definition first_version : string := default "" (head (SUPPORTED_VERSIONS K)).

(** The form at the end of [async_step_user], lines 102-132; the
    description placeholders are display text and are left out. *)
Definition user_form_again (user_input : option pydict) (errors : option string)
    : flow_result :=
  let get_str k := user_input ≫= (λ ui, strs ui !! k) in
  let get_int k := user_input ≫= (λ ui, ints ui !! k) in
  ShowForm "user"
    {| form_host := Some (or_str (get_str CONF_HOST) "");
       form_port := or_int (get_int CONF_PORT) (DEFAULT_PORT K);
       form_unit_id := or_int (get_int CONF_UNIT_ID) (DEFAULT_UNIT_ID K);
       form_device_version := or_str (get_str CONF_DEVICE_VERSION) first_version |}
    errors.

(** The data of the entry the step creates.  The host is a [str] there. *)
Definition new_entry_data (host : option string) (port : Z)
    (device_version : string) (unit_id : Z) : pydict :=
  {| ints := {[ CONF_PORT := port; CONF_UNIT_ID := unit_id ]};
     strs := match host with
             | Some h => {[ CONF_HOST := h; CONF_DEVICE_VERSION := device_version ]}
             | None => {[ CONF_DEVICE_VERSION := device_version ]}
             end |}.

(** The four locals read from [user_input] at the top of the step. *)
Definition host_of (ui : pydict) : option string := strs ui !! CONF_HOST.
Definition port_of (ui : pydict) : Z :=
  default (DEFAULT_PORT K) (ints ui !! CONF_PORT).
Definition device_version_of (ui : pydict) : string :=
  default first_version (strs ui !! CONF_DEVICE_VERSION).
Definition unit_id_of (ui : pydict) : Z :=
  default (DEFAULT_UNIT_ID K) (ints ui !! CONF_UNIT_ID).

(** [translations] is the awaited result of [async_get_translations];
    [entries] is [self._async_current_entries()]. *)
Definition async_step_user (net : network) (translations : gmap string string)
    (entries : list config_entry) (user_input : option pydict) : M flow_result :=
  match user_input with
  | None => ret (user_form_again user_input None)
  | Some ui =>
      let host := host_of ui in
      let port := port_of ui in
      let device_version := device_version_of ui in
      let unit_id := unit_id_of ui in
      let errors :=
        if negb ((1 <=? port) && (port <=? 65535)) then Some "invalid_port"
        else if negb ((1 <=? unit_id) && (unit_id <=? 255))
             then Some "invalid_unit_id"
        else None in
      if bool_decide (is_Some errors) then
        ret (ShowForm "user"
               {| form_host := host; form_port := port; form_unit_id := unit_id;
                  form_device_version := device_version |}
               errors)
      else
        let* resolved :=
          try_except
            (let* _ := call (EvGetHostByName host) (net_gethostbyname net host) in
             ret true)
            [ Except [gaierror; TypeError] (λ _, ret false) ] in
        if negb resolved then ret (user_form_again user_input (Some "invalid_host"))
        else if existsb (same_host_and_unit host unit_id) entries
        then ret (Abort "already_configured")
        else
          let* base := async_test_modbus_connection net host port unit_id in
          if falsy base then
            ret (CreateEntry
                   (default "Marstek Venus Modbus"
                      (translations !! "config.step.user.title"))
                   (new_entry_data host port device_version unit_id))
          else ret (user_form_again user_input base)
  end.

End WithConstants.
End MarstekConfigFlow.

(** ** The part of voluptuous the options schema uses *)

Module vol.

(** One line of a [vol.Schema] over a dict: the marker [vol.Required] or
    [vol.Optional] with its key and [default=], and the validator
    [vol.All(vol.Coerce(int), vol.Clamp(min=.., max=..))]. *)
Record schema_item := {
  item_key : string;
  item_required : bool;
  item_default : Z;
  clamp_min : Z;
  clamp_max : Z
}.

(** [vol.Clamp(min, max)]: a value below [min] becomes [min], then a value
    above [max] becomes [max]. *)
Definition Clamp (lo hi v : Z) : Z :=
  let v := if v <? lo then lo else v in
  if hi <? v then hi else v.

(** The validator of one line on an integer: [vol.Coerce(int)] leaves an
    [int] as it is, then the clamp. *)
Definition validate_value (it : schema_item) (v : Z) : Z :=
  Clamp (clamp_min it) (clamp_max it) v.

Definition keys (sch : list schema_item) : list string := item_key <$> sch.

(** Calling the schema on a dict.  A key the schema does not list is
    refused (the default [extra=PREVENT_EXTRA]); a listed key that is
    missing takes its marker's default, for both markers, and the default
    goes through the validator like a given value; every line here has a
    default, so no required key can be missing.  [None] is
    [vol.Invalid]. *)
Definition Schema (sch : list schema_item) (d : gmap string Z)
    : option (gmap string Z) :=
  if bool_decide (∀ k, k ∈ dom d → k ∈ keys sch) then
    Some (list_to_map
            ((λ it, (item_key it,
                     validate_value it (default (item_default it) (d !! item_key it))))
               <$> sch))
  else None.

End vol.

(** ** The options step *)

Module MarstekOptionsFlow.

(** The coordinator, as far as the step reads and writes it:
    [coordinator.client.unit_id]. *)
Record coordinator := {
  client_unit_id : Z
}.

(** What the step tells the coordinator. *)
Inductive notification :=
| UpdateScanIntervals (user_input : gmap string Z)
| SetClientUnitId (unit_id : Z).

(** Modelled from the spec: [coordinator._update_scan_intervals] is defined
    in the coordinator module, which is not among the sources at hand.  The
    spec describes it as a one-shot notification that re-arms the periodic
    timers at the new intervals; it is recorded as such and leaves
    [client.unit_id] as it is. *)
Definition update_scan_intervals (c : coordinator) (user_input : gmap string Z)
    : coordinator * list notification :=
  (c, [UpdateScanIntervals user_input]).

Inductive options_result :=
| OptionsShowForm (step_id : string) (data_schema : list vol.schema_item)
    (errors : option string) (lowest : option Z)
| OptionsCreateEntry (new_options : gmap string Z).

(** [min(d.values())]; [None] stands for the [ValueError] on an empty
    dict. *)
Definition min_value (d : gmap string Z) : option Z :=
  foldr (λ v acc, Some (match acc with Some a => Z.min v a | None => v end))
    None ((map_to_list d).*2).

(** [user_input or defaults]: [None] and the empty dict are falsy. *)
Definition or_dict (user_input : option (gmap string Z)) (d : gmap string Z)
    : gmap string Z :=
  match user_input with
  | Some ui => if bool_decide (ui = ∅) then d else ui
  | None => d
  end.

Definition rate_keys : list string := ["high"; "medium"; "low"; "very_low"].

Section WithConstants.

Variable K : constants.

(** [config.options.get(key, config.data.get(key, fallback))] *)
Definition stored (config : config_entry) (key : string) (fallback : Z) : Z :=
  default (default fallback (ints (data config) !! key)) (options config !! key).

Definition defaults (config : config_entry) : gmap string Z :=
  list_to_map
    ((λ key, (key, stored config key (DEFAULT_SCAN_INTERVALS K key))) <$> rate_keys).

Definition default_unit_id (config : config_entry) : Z :=
  stored config CONF_UNIT_ID (DEFAULT_UNIT_ID K).

Definition schema (config : config_entry) : list vol.schema_item :=
  let rate key :=
    {| vol.item_key := key; vol.item_required := true;
       vol.item_default := defaults config !!! key;
       vol.clamp_min := 1; vol.clamp_max := 3600 |} in
  [ {| vol.item_key := CONF_UNIT_ID; vol.item_required := false;
       vol.item_default := default_unit_id config;
       vol.clamp_min := 1; vol.clamp_max := 255 |};
    rate "high"; rate "medium"; rate "low"; rate "very_low" ].

(** [hass_data] is the dict [self.hass.data.get(DOMAIN, {})], from entry
    ids to coordinators.  The coordinator is an object the step mutates in
    place: the changed coordinator is written back under its id. *)
Definition async_step_init (hass_data : gmap string coordinator)
    (config : config_entry) (user_input : option (gmap string Z))
    : options_result * gmap string coordinator * list notification :=
  let lowest := min_value (or_dict user_input (defaults config)) in
  match user_input with
  | Some ui =>
      match hass_data !! entry_id config with
      | Some coordinator0 =>
          let '(coordinator1, sent) := update_scan_intervals coordinator0 ui in
          let new_unit_id := default (default_unit_id config) (ui !! CONF_UNIT_ID) in
          if bool_decide (new_unit_id ≠ client_unit_id coordinator1) then
            (OptionsCreateEntry ui,
             <[entry_id config := {| client_unit_id := new_unit_id |}]> hass_data,
             sent ++ [SetClientUnitId new_unit_id])
          else
            (OptionsCreateEntry ui, <[entry_id config := coordinator1]> hass_data, sent)
      | None => (OptionsCreateEntry ui, hass_data, [])
      end
  | None => (OptionsShowForm "init" (schema config) None lowest, hass_data, [])
  end.

(** One round of the options flow as the flow manager drives it: the step
    is called without input and shows its form; the submitted dict is put
    through the schema of that form; the step is called again with the
    validated dict; the entry it creates becomes the options of the config
    entry.  [None] when the submission is refused by the schema. *)
Definition reconcile (hass_data : gmap string coordinator)
    (config : config_entry) (submitted : gmap string Z)
    : option (config_entry * gmap string coordinator * list notification) :=
  match async_step_init hass_data config None with
  | (OptionsShowForm _ data_schema _ _, _, _) =>
      match vol.Schema data_schema submitted with
      | Some user_input =>
          match async_step_init hass_data config (Some user_input) with
          | (OptionsCreateEntry new_options, hass_data', sent) =>
              Some ({| entry_id := entry_id config; data := data config;
                       options := new_options |},
                    hass_data', sent)
          | _ => None
          end
      | None => None
      end
  | _ => None
  end.

End WithConstants.
End MarstekOptionsFlow.

(** ** The probe, case by case *)

(** The value the probe returns, read off the three answers of the
    network. *)
Definition probe_value (net : network) (host : option string) (port unit_id : Z)
    : probe_outcome :=
  match net_connect net host port with
  | Raised e => if isinstance e OSError then classify_oserror e else CannotConnect
  | Returned false => CannotConnect
  | Returned true =>
      match net_read_holding_registers net host port 32101 1 unit_id with
      | Raised _ => UnitNoResponse
      | Returned result => check_result result
      end
  end.

(** The calls the probe makes, in order. *)
Definition probe_calls (net : network) (host : option string) (port unit_id : Z)
    : list event :=
  EvConnect host port ::
  match net_connect net host port with
  | Returned true => [EvReadHoldingRegisters 32101 1 unit_id]
  | _ => []
  end ++ [EvClose].


(** The text of an error mentions a phrase: [phrase in str(err).lower()]. *)
Definition mentions (err : py_exception) (phrase : string) : Prop :=
  Str.contains phrase (Str.lower (exc_str err)) = true.

(** ** The options step, field by field *)

(** The five fields of the options form and the range each is kept in. *)
Definition fields : list (string * (Z * Z)) :=
  [ (CONF_UNIT_ID, (1, 255));
    ("high", (1, 3600)); ("medium", (1, 3600));
    ("low", (1, 3600)); ("very_low", (1, 3600)) ].

(** The fixed default of a field: [DEFAULT_UNIT_ID] for the unit id,
    [DEFAULT_SCAN_INTERVALS[key]] for a rate. *)
Definition system_default (K : constants) (key : string) : Z :=
  if bool_decide (key = CONF_UNIT_ID) then DEFAULT_UNIT_ID K
  else DEFAULT_SCAN_INTERVALS K key.

(** The value a field has before the submission: the options of the entry,
    else its data, else the fixed default. *)
Definition existing (K : constants) (config : config_entry) (key : string) : Z :=
  match options config !! key with
  | Some v => v
  | None =>
      match ints (data config) !! key with
      | Some v => v
      | None => system_default K key
      end
  end.

(** A value brought into [lo..hi]. *)
Definition clamped (lo hi v : Z) : Z := Z.max lo (Z.min v hi).

(** A submission that names fields of the form only. *)
Definition only_fields (submitted : gmap string Z) : Prop :=
  ∀ k, k ∈ dom submitted → k ∈ CONF_UNIT_ID :: MarstekOptionsFlow.rate_keys.

(** A config entry with new options. *)
Definition with_options (config : config_entry) (new_options : gmap string Z)
    : config_entry :=
  {| entry_id := entry_id config; data := data config; options := new_options |}.

(** The dict the schema of the options form makes of a submission it
    accepts. *)
Definition validated (K : constants) (config : config_entry)
    (submitted : gmap string Z) : gmap string Z :=
  list_to_map
    ((λ it, (vol.item_key it,
             vol.validate_value it
               (default (vol.item_default it) (submitted !! vol.item_key it))))
       <$> MarstekOptionsFlow.schema K config).

(** ** Concrete networks and inputs *)

Module Examples.

(** A network that gives the same four answers whatever it is asked. *)
Definition answering (resolve : outcome unit) (connect : outcome bool)
    (read : outcome (option response)) (close : outcome unit) : network :=
  {| net_gethostbyname := λ _, resolve;
     net_connect := λ _ _, connect;
     net_read_holding_registers := λ _ _ _ _ _, read;
     net_close := λ _ _, close |}.

(** A Modbus exception response with the given code. *)
Definition exception_response (code : Z) : response :=
  {| rsp_isError := Some true; rsp_exception_code := Some code |}.

(** A register read that succeeded. *)
Definition data_response : response :=
  {| rsp_isError := Some false; rsp_exception_code := None |}.

Definition reachable (read : outcome (option response)) : network :=
  answering (Returned tt) (Returned true) read (Returned tt).

Definition unreachable (connect : outcome bool) : network :=
  answering (Returned tt) connect (Returned None) (Returned tt).

Definition os_error (msg : string) : py_exception :=
  {| exc_mro := [OSError]; exc_str := msg |}.

Definition gai_error : py_exception :=
  {| exc_mro := [gaierror; OSError];
     exc_str := "[Errno -2] Name or service not known" |}.

Definition value_error (msg : string) : py_exception :=
  {| exc_mro := []; exc_str := msg |}.

Definition host : option string := Some "192.168.1.50".

Definition K0 : constants :=
  {| DOMAIN := "marstek_modbus";
     DEFAULT_PORT := 502;
     DEFAULT_UNIT_ID := 1;
     SUPPORTED_VERSIONS := ["v1/v2"; "v3"];
     DEFAULT_SCAN_INTERVALS := λ _, 30 |}.

(** A submission of the setup form. *)
Definition submission (h : string) (port unit_id : Z) : pydict :=
  {| ints := {[ CONF_PORT := port; CONF_UNIT_ID := unit_id ]};
     strs := {[ CONF_HOST := h; CONF_DEVICE_VERSION := "v3" ]} |}.

(** An entry registered earlier for the same kind of submission. *)
Definition registered (id h : string) (port unit_id : Z) : config_entry :=
  {| entry_id := id; data := submission h port unit_id; options := ∅ |}.

(** A device that answers the read with data. *)
Definition healthy : network := reachable (Returned (Some data_response)).

(** The same device behind a name that does not resolve. *)
Definition no_dns : network :=
  answering (Raised gai_error) (Returned true)
    (Returned (Some data_response)) (Returned tt).

Definition in_range : pydict := submission "marstek.local" 502 1.
Definition other_port : pydict := submission "marstek.local" 1502 1.
Definition port_0 : pydict := submission "marstek.local" 0 1.
Definition unit_300 : pydict := submission "marstek.local" 502 300.

Definition entry_1 : config_entry := registered "entry-1" "marstek.local" 502 1.

(** An entry set up with unit id 1 whose options were never edited, a
    coordinator polling for it, and a submission of the options form. *)
Definition fresh_entry : config_entry :=
  {| entry_id := "entry-1"; data := in_range; options := ∅ |}.

Definition polling : gmap string MarstekOptionsFlow.coordinator :=
  {[ "entry-1" := {| MarstekOptionsFlow.client_unit_id := 1 |} ]}.

Definition edited : gmap string Z := {[ "high" := 5000; CONF_UNIT_ID := 0 ]}.

(** The probe against a device whose connect answers as given. *)
Definition probe_when (connect : outcome bool) : outcome probe_outcome :=
  result_of (async_test_modbus_connection (unreachable connect) host 502 1).

End Examples.

(** ** The re-authentication step *)

Module MarstekConfigFlowReauth.

(** A registered entry together with its title. *)
Record titled_entry := {
  the_entry : config_entry;
  title : string
}.

Inductive reauth_result :=
| ReauthShowForm (step_id : string) (default_version : string)
    (errors : option string)
| ReauthCreateEntry (entry_title : string) (entry_data : pydict).

(** [new_data = dict(entry.data)] followed by
    [new_data[CONF_DEVICE_VERSION] = version].  A key set to [None] reads as
    [None] through [.get], like a key that is absent. *)
Definition with_device_version (d : pydict) (version : option string) : pydict :=
  {| ints := ints d;
     strs := match version with
             | Some v => <[CONF_DEVICE_VERSION := v]> (strs d)
             | None => delete CONF_DEVICE_VERSION (strs d)
             end |}.

Section WithConstants.

Variable K : constants.

(** [update_entry] answers the awaited
    [self.hass.config_entries.async_update_entry(entry, data=new_data)]: it
    returns or raises.  [entries] is [self._async_current_entries()];
    [submitted] is the parameter [data] of the step.  Beside
    its result the step gives the updates it asked for, in order.  The
    description placeholders of the form are display text and are left
    out. *)
Definition async_step_reauth
    (update_entry : config_entry → pydict → outcome unit)
    (entries : list titled_entry) (submitted : option pydict)
    : reauth_result * list (config_entry * pydict) :=
  let form errors :=
    ReauthShowForm "reauth" (MarstekConfigFlow.first_version K) errors in
  match submitted with
  | None => (form None, [])
  | Some d =>
      match head entries with
      | None => (form None, [])
      | Some entry =>
          let new_data :=
            with_device_version (data (the_entry entry))
              (strs d !! CONF_DEVICE_VERSION) in
          match update_entry (the_entry entry) new_data with
          | Returned _ =>
              (ReauthCreateEntry (or_str (Some (title entry)) (DOMAIN K))
                 {| ints := ∅; strs := ∅ |},
               [(the_entry entry, new_data)])
          | Raised _ => (form (Some "unknown"), [(the_entry entry, new_data)])
          end
      end
  end.

End WithConstants.
End MarstekConfigFlowReauth.

(** ** The setup step, case by case *)

Module StepCases.

Import MarstekConfigFlow.

(** What a run of the step on a submission comes to: one of seven cases. *)
Inductive step_case (K : constants) (net : network)
    (translations : gmap string string) (entries : list config_entry)
    (ui : pydict) : outcome flow_result → list event → Prop :=
| case_invalid_port :
    ¬ (1 ≤ port_of K ui ≤ 65535) →
    step_case K net translations entries ui
      (Returned (ShowForm "user"
                   {| form_host := host_of ui; form_port := port_of K ui;
                      form_unit_id := unit_id_of K ui;
                      form_device_version := device_version_of K ui |}
                   (Some "invalid_port"))) []
| case_invalid_unit_id :
    1 ≤ port_of K ui ≤ 65535 →
    ¬ (1 ≤ unit_id_of K ui ≤ 255) →
    step_case K net translations entries ui
      (Returned (ShowForm "user"
                   {| form_host := host_of ui; form_port := port_of K ui;
                      form_unit_id := unit_id_of K ui;
                      form_device_version := device_version_of K ui |}
                   (Some "invalid_unit_id"))) []
| case_invalid_host e :
    1 ≤ port_of K ui ≤ 65535 →
    1 ≤ unit_id_of K ui ≤ 255 →
    net_gethostbyname net (host_of ui) = Raised e →
    isinstance e gaierror = true ∨ isinstance e TypeError = true →
    step_case K net translations entries ui
      (Returned (user_form_again K (Some ui) (Some "invalid_host")))
      [EvGetHostByName (host_of ui)]
| case_raised e :
    1 ≤ port_of K ui ≤ 65535 →
    1 ≤ unit_id_of K ui ≤ 255 →
    net_gethostbyname net (host_of ui) = Raised e →
    isinstance e gaierror = false →
    isinstance e TypeError = false →
    step_case K net translations entries ui
      (Raised e) [EvGetHostByName (host_of ui)]
| case_duplicate :
    1 ≤ port_of K ui ≤ 65535 →
    1 ≤ unit_id_of K ui ≤ 255 →
    net_gethostbyname net (host_of ui) = Returned tt →
    existsb (same_host_and_unit (host_of ui) (unit_id_of K ui)) entries = true →
    step_case K net translations entries ui
      (Returned (Abort "already_configured")) [EvGetHostByName (host_of ui)]
| case_created :
    1 ≤ port_of K ui ≤ 65535 →
    1 ≤ unit_id_of K ui ≤ 255 →
    net_gethostbyname net (host_of ui) = Returned tt →
    existsb (same_host_and_unit (host_of ui) (unit_id_of K ui)) entries = false →
    probe_value net (host_of ui) (port_of K ui) (unit_id_of K ui) = Success →
    step_case K net translations entries ui
      (Returned (CreateEntry
                   (default "Marstek Venus Modbus"
                      (translations !! "config.step.user.title"))
                   (new_entry_data (host_of ui) (port_of K ui)
                      (device_version_of K ui) (unit_id_of K ui))))
      (EvGetHostByName (host_of ui)
         :: probe_calls net (host_of ui) (port_of K ui) (unit_id_of K ui))
| case_probe_failed key :
    1 ≤ port_of K ui ≤ 65535 →
    1 ≤ unit_id_of K ui ≤ 255 →
    net_gethostbyname net (host_of ui) = Returned tt →
    existsb (same_host_and_unit (host_of ui) (unit_id_of K ui)) entries = false →
    probe_value net (host_of ui) (port_of K ui) (unit_id_of K ui) = Some key →
    key ≠ "" →
    step_case K net translations entries ui
      (Returned (user_form_again K (Some ui) (Some key)))
      (EvGetHostByName (host_of ui)
         :: probe_calls net (host_of ui) (port_of K ui) (unit_id_of K ui)).

End StepCases.

(** ** Reading a trace *)

Definition is_connect (ev : event) : bool :=
  match ev with
  | EvConnect _ _ => true
  | _ => false
  end.

Definition is_close (ev : event) : bool :=
  match ev with
  | EvClose => true
  | _ => false
  end.

(** ** The part of pymodbus the probe relies on *)

Module pymodbus.

(** [ModbusTcpClient.connect()].  It calls [socket.create_connection]; an
    [OSError] from that call is logged and swallowed, and the method returns
    whether a socket is open.  [create_connection] is the answer of the
    socket: it opens, or raises. *)
Definition connect (create_connection : outcome unit) : outcome bool :=
  match create_connection with
  | Returned _ => Returned true
  | Raised e => if isinstance e OSError then Returned false else Raised e
  end.

End pymodbus.

(** ** More concrete networks and inputs *)

Module MoreExamples.

(** A read result that has no [isError] attribute. *)
Definition bare_response : response :=
  {| rsp_isError := None; rsp_exception_code := None |}.

(** A device that answers the read but whose socket fails on close. *)
Definition closing_badly : network :=
  Examples.answering (Returned tt) (Returned true)
    (Returned (Some Examples.data_response))
    (Raised (Examples.os_error "[Errno 32] Broken pipe")).

(** A host whose connect raises something that is no [OSError]. *)
Definition odd_connect : network :=
  Examples.unreachable (Raised (Examples.value_error "port must be 0-65535")).

(** What the socket raises when the port refuses, when the connect times
    out, and when the connect is not permitted. *)
Definition connection_refused : py_exception :=
  {| exc_mro := [ConnectionError; OSError];
     exc_str := "[Errno 111] Connection refused" |}.

Definition connection_timed_out : py_exception :=
  {| exc_mro := [OSError]; exc_str := "timed out" |}.

Definition permission_denied : py_exception :=
  {| exc_mro := [OSError]; exc_str := "[Errno 13] Permission denied" |}.

(** A device reached through the client, whose socket answers as given. *)
Definition behind_client (create_connection : outcome unit) : network :=
  Examples.unreachable (pymodbus.connect create_connection).

(** A host that refuses the connection. *)
Definition refused : network := behind_client (Raised connection_refused).

(** What [socket.gethostbyname] raises on a host name with an empty label:
    a [UnicodeError], which is none of the classes the handlers name. *)
Definition unicode_error : py_exception :=
  {| exc_mro := [];
     exc_str := "encoding with 'idna' codec failed (UnicodeError: label empty or too long)" |}.

(** A submission whose host has an empty label, and the resolver's answer
    to it. *)
Definition malformed : pydict := Examples.submission "a..b" 502 1.

Definition idna_failure : network :=
  Examples.answering (Raised unicode_error) (Returned true)
    (Returned (Some Examples.data_response)) (Returned tt).

(** A resolver that raises something the setup step does not catch. *)
Definition bad_label : network :=
  Examples.answering
    (Raised (Examples.value_error "label empty or too long"))
    (Returned true) (Returned (Some Examples.data_response)) (Returned tt).

(** The entry the setup step creates for [Examples.in_range]. *)
Definition created : config_entry :=
  {| entry_id := "entry-2";
     data := MarstekConfigFlow.new_entry_data (Some "marstek.local") 502 "v3" 1;
     options := ∅ |}.

(** A submission of the re-authentication form, and a registered entry. *)
Definition chosen_version : pydict :=
  {| ints := ∅; strs := {[ CONF_DEVICE_VERSION := "v1/v2" ]} |}.

Definition titled (t : string) : MarstekConfigFlowReauth.titled_entry :=
  {| MarstekConfigFlowReauth.the_entry := Examples.entry_1;
     MarstekConfigFlowReauth.title := t |}.

End MoreExamples.

(** * Properties *)

(** ** The probe *)

Arguments isinstance : simpl never.

Lemma catches_Exception {A} e (body : py_exception → M A) :
  catches e (Except [Exception] body) = true.
Proof. reflexivity. Qed.

Lemma catches_OSError {A} e (body : py_exception → M A) :
  catches e (Except [OSError] body) = isinstance e OSError.
Proof. unfold catches; simpl. by rewrite orb_false_r. Qed.

Ltac trace_eq := rewrite <- ?app_assoc; reflexivity.

Lemma probe_from net host port unit_id t :
  async_test_modbus_connection net host port unit_id t
  = (Returned (probe_value net host port unit_id),
     t ++ probe_calls net host port unit_id).
Proof.
  unfold async_test_modbus_connection, probe_value, probe_calls,
    try_finally, try_except, bind, call, ret, raise.
  destruct (net_connect net host port) as [[|]|e]; simpl.
  - destruct (net_read_holding_registers net host port 32101 1 unit_id) as [r|e];
      simpl.
    + destruct (net_close net host port); simpl;
        trace_eq.
    + destruct (catches e _); simpl;
        destruct (net_close net host port); simpl;
        trace_eq.
  - destruct (net_close net host port); simpl; trace_eq.
  - rewrite catches_OSError. unfold isinstance.
    destruct (bool_decide (OSError ∈ exc_mro e)); simpl;
      destruct (net_close net host port); simpl; trace_eq.
Qed.

Lemma run_probe net host port unit_id :
  run (async_test_modbus_connection net host port unit_id)
  = (Returned (probe_value net host port unit_id),
     probe_calls net host port unit_id).
Proof. unfold run. by rewrite probe_from. Qed.

Lemma result_of_probe net host port unit_id :
  result_of (async_test_modbus_connection net host port unit_id)
  = Returned (probe_value net host port unit_id).
Proof. unfold result_of. by rewrite run_probe. Qed.

Lemma trace_of_probe net host port unit_id :
  trace_of (async_test_modbus_connection net host port unit_id)
  = probe_calls net host port unit_id.
Proof. unfold trace_of. by rewrite run_probe. Qed.

Lemma code_in_1234_spec (code : option Z) :
  code_in_1234 code = true ↔ code ∈ [Some 1; Some 2; Some 3; Some 4].
Proof.
  rewrite list_elem_of_In. unfold code_in_1234.
  destruct code as [c|]; simpl.
  - rewrite bool_decide_eq_true, list_elem_of_In. simpl.
    split; intros H; repeat destruct H as [H|H];
      try contradiction; try injection H as H; subst; tauto.
  - split; [discriminate |]. intros H. repeat destruct H as [H|H];
      try contradiction; discriminate.
Qed.

(** C1. When the connection is up and the read hands back an error
    response, the probe returns success for the exception codes 1, 2, 3 and
    4 and [unit_id_no_response] for every other code, a missing code
    included. *)
Theorem error_response_by_exception_code net host port unit_id r :
  net_connect net host port = Returned true →
  net_read_holding_registers net host port 32101 1 unit_id = Returned (Some r) →
  rsp_isError r = Some true →
  (rsp_exception_code r ∈ [Some 1; Some 2; Some 3; Some 4] →
   result_of (async_test_modbus_connection net host port unit_id) = Returned Success)
  ∧ (rsp_exception_code r ∉ [Some 1; Some 2; Some 3; Some 4] →
     result_of (async_test_modbus_connection net host port unit_id)
     = Returned UnitNoResponse).
Proof.
  intros Hconnect Hread Herr.
  rewrite result_of_probe. unfold probe_value, check_result.
  rewrite Hconnect, Hread, Herr.
  pose proof (code_in_1234_spec (rsp_exception_code r)) as Hcode.
  destruct (code_in_1234 (rsp_exception_code r)); split; intros Hin;
    try reflexivity; exfalso.
  - apply Hin, Hcode. reflexivity.
  - apply Hcode in Hin. discriminate.
Qed.

Lemma error_response_by_exception_code_witness :
  result_of (async_test_modbus_connection
               (Examples.reachable (Returned (Some (Examples.exception_response 2))))
               Examples.host 502 1)
  = Returned Success
  ∧ result_of (async_test_modbus_connection
                 (Examples.reachable (Returned (Some (Examples.exception_response 11))))
                 Examples.host 502 1)
    = Returned UnitNoResponse.
Proof.
  split.
  - apply (error_response_by_exception_code
             (Examples.reachable (Returned (Some (Examples.exception_response 2))))
             Examples.host 502 1 (Examples.exception_response 2));
      [reflexivity | reflexivity | reflexivity |].
    simpl. apply list_elem_of_In. simpl. tauto.
  - apply (error_response_by_exception_code
             (Examples.reachable (Returned (Some (Examples.exception_response 11))))
             Examples.host 502 1 (Examples.exception_response 11));
      [reflexivity | reflexivity | reflexivity |].
    simpl. intros Hin. apply list_elem_of_In in Hin. simpl in Hin.
    intuition discriminate.
Defined.

(** C2. The probe never raises: whatever the network answers, it returns
    one of its six outcomes; and an exception raised by the read, of any
    class, comes back as [unit_id_no_response]. *)
Theorem probe_never_raises net host port unit_id :
  ∃ o : probe_outcome,
    result_of (async_test_modbus_connection net host port unit_id) = Returned o
    ∧ o ∈ [Success; UnitNoResponse; PermissionDenied; ConnectionRefused;
           TimedOut; CannotConnect]
    ∧ (∀ e, net_connect net host port = Returned true →
            net_read_holding_registers net host port 32101 1 unit_id = Raised e →
            o = UnitNoResponse).
Proof.
  exists (probe_value net host port unit_id).
  split; [apply result_of_probe |]. split.
  - unfold probe_value, classify_oserror, check_result.
    repeat match goal with
           | |- context [match ?x with _ => _ end] => destruct x
           end;
      apply list_elem_of_In; simpl; tauto.
  - intros e Hconnect Hread. unfold probe_value. by rewrite Hconnect, Hread.
Qed.

Lemma probe_never_raises_witness :
  result_of (async_test_modbus_connection
               (Examples.reachable (Raised (Examples.value_error "bad frame")))
               Examples.host 502 1)
  = Returned UnitNoResponse.
Proof.
  destruct (probe_never_raises
              (Examples.reachable (Raised (Examples.value_error "bad frame")))
              Examples.host 502 1) as (o & Hresult & _ & Hread).
  rewrite Hresult. f_equal.
  apply (Hread (Examples.value_error "bad frame")); reflexivity.
Defined.

(** C4. On every path the probe calls [client.close()] exactly once, and it
    is the last thing it does before it returns. *)
Theorem close_called_exactly_once net host port unit_id :
  List.length (filter (λ ev, ev = EvClose)
            (trace_of (async_test_modbus_connection net host port unit_id))) = 1%nat
  ∧ last (trace_of (async_test_modbus_connection net host port unit_id))
    = Some EvClose.
Proof.
  rewrite trace_of_probe. unfold probe_calls.
  destruct (net_connect net host port) as [[|]|e]; split; reflexivity.
Qed.

(** C10. When the connection is up and the read hands back [None], the
    probe returns [unit_id_no_response]. *)
Theorem none_result_is_no_response net host port unit_id :
  net_connect net host port = Returned true →
  net_read_holding_registers net host port 32101 1 unit_id = Returned None →
  result_of (async_test_modbus_connection net host port unit_id)
  = Returned UnitNoResponse.
Proof.
  intros Hconnect Hread. rewrite result_of_probe. unfold probe_value.
  by rewrite Hconnect, Hread.
Qed.

Lemma none_result_is_no_response_witness :
  result_of (async_test_modbus_connection
               (Examples.reachable (Returned None)) Examples.host 502 1)
  = Returned UnitNoResponse.
Proof.
  apply (none_result_is_no_response
           (Examples.reachable (Returned None)) Examples.host 502 1);
    reflexivity.
Defined.

(** The handlers of the outer [try], read alone: when [connect()] itself
    raises an [OSError], the error is classified by what its text says,
    permission denied, else connection refused, else a timeout, else
    [cannot_connect]; a [connect()] that only reports [False] is
    [cannot_connect] as well. *)
Theorem connect_failure_classified net host port unit_id :
  (∀ e, net_connect net host port = Raised e →
        isinstance e OSError = true →
        (mentions e "permission denied" →
         result_of (async_test_modbus_connection net host port unit_id)
         = Returned PermissionDenied)
        ∧ (¬ mentions e "permission denied" →
           mentions e "connection refused" →
           result_of (async_test_modbus_connection net host port unit_id)
           = Returned ConnectionRefused)
        ∧ (¬ mentions e "permission denied" →
           ¬ mentions e "connection refused" →
           mentions e "timed out" ∨ mentions e "timeout" →
           result_of (async_test_modbus_connection net host port unit_id)
           = Returned TimedOut)
        ∧ (¬ mentions e "permission denied" →
           ¬ mentions e "connection refused" →
           ¬ mentions e "timed out" →
           ¬ mentions e "timeout" →
           result_of (async_test_modbus_connection net host port unit_id)
           = Returned CannotConnect))
  ∧ (net_connect net host port = Returned false →
     result_of (async_test_modbus_connection net host port unit_id)
     = Returned CannotConnect).
Proof.
  split.
  - intros e Hconnect Hos. rewrite result_of_probe.
    unfold probe_value, classify_oserror, mentions. rewrite Hconnect, Hos.
    destruct (Str.contains "permission denied" _);
      destruct (Str.contains "connection refused" _);
      destruct (Str.contains "timed out" _);
      destruct (Str.contains "timeout" _); simpl;
      repeat split; intros; try reflexivity;
      repeat match goal with
             | H : ¬ (true = true) |- _ => destruct (H eq_refl)
             | H : _ ∨ _ |- _ => destruct H
             end; discriminate.
  - intros Hconnect. rewrite result_of_probe. unfold probe_value.
    by rewrite Hconnect.
Qed.

Lemma connect_failure_classified_witness :
  Examples.probe_when (Raised (Examples.os_error "[Errno 13] Permission denied"))
  = Returned PermissionDenied
  ∧ Examples.probe_when (Raised (Examples.os_error "[Errno 111] Connection refused"))
    = Returned ConnectionRefused
  ∧ Examples.probe_when (Raised (Examples.os_error "timed out")) = Returned TimedOut
  ∧ Examples.probe_when (Raised (Examples.os_error "[Errno 113] No route to host"))
    = Returned CannotConnect
  ∧ Examples.probe_when (Returned false) = Returned CannotConnect.
Proof.
  pose (classified connect :=
          connect_failure_classified (Examples.unreachable connect)
            Examples.host 502 1).
  unfold Examples.probe_when. split; [| split; [| split; [| split]]].
  - destruct (classified (Raised (Examples.os_error "[Errno 13] Permission denied")))
      as [Hraised _].
    destruct (Hraised _ eq_refl eq_refl) as (H & _). apply H. reflexivity.
  - destruct (classified (Raised (Examples.os_error "[Errno 111] Connection refused")))
      as [Hraised _].
    destruct (Hraised _ eq_refl eq_refl) as (_ & H & _).
    apply H; [discriminate | reflexivity].
  - destruct (classified (Raised (Examples.os_error "timed out"))) as [Hraised _].
    destruct (Hraised _ eq_refl eq_refl) as (_ & _ & H & _).
    apply H; [discriminate | discriminate | left; reflexivity].
  - destruct (classified (Raised (Examples.os_error "[Errno 113] No route to host")))
      as [Hraised _].
    destruct (Hraised _ eq_refl eq_refl) as (_ & _ & _ & H).
    apply H; discriminate.
  - destruct (classified (Returned false)) as [_ Hfalse]. apply Hfalse. reflexivity.
Defined.

(** C5, where the code falls short.  The client does not let the
    operating-system error of a failed connect through: it swallows it and
    [connect()] returns [False].  The probe then raises its own
    [ConnectionError], whose text names no cause, so that every such
    failure, a refusal, a timeout and a permission failure included, is
    answered with [cannot_connect]. *)
Theorem os_failure_behind_client_is_cannot_connect net host port unit_id e :
  isinstance e OSError = true →
  net_connect net host port = pymodbus.connect (Raised e) →
  result_of (async_test_modbus_connection net host port unit_id)
  = Returned CannotConnect.
Proof.
  intros Hos Hconnect. rewrite result_of_probe. unfold probe_value.
  rewrite Hconnect. unfold pymodbus.connect. by rewrite Hos.
Qed.

Lemma os_failure_behind_client_is_cannot_connect_witness :
  result_of (async_test_modbus_connection MoreExamples.refused Examples.host 502 1)
  = Returned CannotConnect
  ∧ result_of (async_test_modbus_connection
                 (MoreExamples.behind_client
                    (Raised MoreExamples.connection_timed_out))
                 Examples.host 502 1)
    = Returned CannotConnect
  ∧ result_of (async_test_modbus_connection
                 (MoreExamples.behind_client
                    (Raised MoreExamples.permission_denied))
                 Examples.host 502 1)
    = Returned CannotConnect.
Proof.
  split; [| split].
  - apply (os_failure_behind_client_is_cannot_connect MoreExamples.refused
             Examples.host 502 1 MoreExamples.connection_refused);
      reflexivity.
  - apply (os_failure_behind_client_is_cannot_connect
             (MoreExamples.behind_client
                (Raised MoreExamples.connection_timed_out))
             Examples.host 502 1 MoreExamples.connection_timed_out);
      reflexivity.
  - apply (os_failure_behind_client_is_cannot_connect
             (MoreExamples.behind_client (Raised MoreExamples.permission_denied))
             Examples.host 502 1 MoreExamples.permission_denied);
      reflexivity.
Defined.

(** An exception from [connect()] that is no [OSError] is [cannot_connect]
    too: the second handler of the outer [try]. *)
Lemma connect_other_exception net host port unit_id e :
  net_connect net host port = Raised e →
  isinstance e OSError = false →
  result_of (async_test_modbus_connection net host port unit_id)
  = Returned CannotConnect.
Proof.
  intros Hconnect Hos. rewrite result_of_probe. unfold probe_value.
  by rewrite Hconnect, Hos.
Qed.

(** C3, as stated, fails: the probe checks no range.  With port 0, and
    with unit id 300, it connects, reads, and reports success. *)
Lemma probe_takes_out_of_range_parameters :
  run (async_test_modbus_connection Examples.healthy Examples.host 0 1)
  = (Returned Success,
     [EvConnect Examples.host 0; EvReadHoldingRegisters 32101 1 1; EvClose])
  ∧ run (async_test_modbus_connection Examples.healthy Examples.host 502 300)
    = (Returned Success,
       [EvConnect Examples.host 502; EvReadHoldingRegisters 32101 1 300; EvClose]).
Proof. split; reflexivity. Qed.

(** ** The setup step *)

Section UserStep.

Import MarstekConfigFlow.

Variable K : constants.
Variable net : network.
Variable translations : gmap string string.
Variable entries : list config_entry.

Abbreviation step ui := (async_step_user K net translations entries (Some ui)).

Lemma in_range_leb lo hi x :
  lo ≤ x ≤ hi → (lo <=? x) && (x <=? hi) = true.
Proof. intros. apply andb_true_iff; split; apply Z.leb_le; lia. Qed.

Lemma out_of_range_leb lo hi x :
  ¬ (lo ≤ x ≤ hi) → (lo <=? x) && (x <=? hi) = false.
Proof.
  intros H. apply not_true_is_false. intros E. apply H.
  apply andb_true_iff in E as [?%Z.leb_le ?%Z.leb_le]. lia.
Qed.

Lemma step_invalid_port ui :
  ¬ (1 ≤ port_of K ui ≤ 65535) →
  run (step ui)
  = (Returned (ShowForm "user"
                 {| form_host := host_of ui; form_port := port_of K ui;
                    form_unit_id := unit_id_of K ui;
                    form_device_version := device_version_of K ui |}
                 (Some "invalid_port")), []).
Proof.
  intros Hport. unfold run, async_step_user.
  by rewrite (out_of_range_leb _ _ _ Hport).
Qed.

Lemma step_invalid_unit_id ui :
  1 ≤ port_of K ui ≤ 65535 →
  ¬ (1 ≤ unit_id_of K ui ≤ 255) →
  run (step ui)
  = (Returned (ShowForm "user"
                 {| form_host := host_of ui; form_port := port_of K ui;
                    form_unit_id := unit_id_of K ui;
                    form_device_version := device_version_of K ui |}
                 (Some "invalid_unit_id")), []).
Proof.
  intros Hport Hunit. unfold run, async_step_user.
  by rewrite (in_range_leb _ _ _ Hport), (out_of_range_leb _ _ _ Hunit).
Qed.

(** The step past its two range checks, from the trace [t]: the
    resolution of the host and what follows it. *)
Lemma step_resolution_fails ui e t :
  1 ≤ port_of K ui ≤ 65535 →
  1 ≤ unit_id_of K ui ≤ 255 →
  net_gethostbyname net (host_of ui) = Raised e →
  isinstance e gaierror = true ∨ isinstance e TypeError = true →
  step ui t
  = (Returned (user_form_again K (Some ui) (Some "invalid_host")),
     t ++ [EvGetHostByName (host_of ui)]).
Proof.
  intros Hport Hunit Hraised Hclass. unfold async_step_user.
  rewrite (in_range_leb _ _ _ Hport), (in_range_leb _ _ _ Hunit). simpl.
  unfold bind, try_except, call, ret. rewrite Hraised. simpl.
  unfold catches. simpl.
  replace (isinstance e gaierror || (isinstance e TypeError || false)) with true
    by (destruct Hclass as [-> | ->]; by rewrite ?orb_true_r).
  reflexivity.
Qed.

Lemma step_resolution_other_exception ui e t :
  1 ≤ port_of K ui ≤ 65535 →
  1 ≤ unit_id_of K ui ≤ 255 →
  net_gethostbyname net (host_of ui) = Raised e →
  isinstance e gaierror = false →
  isinstance e TypeError = false →
  step ui t = (Raised e, t ++ [EvGetHostByName (host_of ui)]).
Proof.
  intros Hport Hunit Hraised Hgai Htype. unfold async_step_user.
  rewrite (in_range_leb _ _ _ Hport), (in_range_leb _ _ _ Hunit). simpl.
  unfold bind, try_except, call, ret. rewrite Hraised. simpl.
  unfold catches. simpl. by rewrite Hgai, Htype.
Qed.

Lemma step_duplicate ui t :
  1 ≤ port_of K ui ≤ 65535 →
  1 ≤ unit_id_of K ui ≤ 255 →
  net_gethostbyname net (host_of ui) = Returned tt →
  existsb (same_host_and_unit (host_of ui) (unit_id_of K ui)) entries = true →
  step ui t
  = (Returned (Abort "already_configured"), t ++ [EvGetHostByName (host_of ui)]).
Proof.
  intros Hport Hunit Hresolved Hdup. unfold async_step_user.
  rewrite (in_range_leb _ _ _ Hport), (in_range_leb _ _ _ Hunit). simpl.
  unfold bind, try_except, call, ret. rewrite Hresolved. simpl.
  by rewrite Hdup.
Qed.

Lemma step_probes ui t :
  1 ≤ port_of K ui ≤ 65535 →
  1 ≤ unit_id_of K ui ≤ 255 →
  net_gethostbyname net (host_of ui) = Returned tt →
  existsb (same_host_and_unit (host_of ui) (unit_id_of K ui)) entries = false →
  step ui t
  = (Returned
       (let base := probe_value net (host_of ui) (port_of K ui) (unit_id_of K ui) in
        if falsy base then
          CreateEntry
            (default "Marstek Venus Modbus" (translations !! "config.step.user.title"))
            (new_entry_data (host_of ui) (port_of K ui)
               (device_version_of K ui) (unit_id_of K ui))
        else user_form_again K (Some ui) base),
     t ++ EvGetHostByName (host_of ui)
       :: probe_calls net (host_of ui) (port_of K ui) (unit_id_of K ui)).
Proof.
  intros Hport Hunit Hresolved Hdup. unfold async_step_user.
  rewrite (in_range_leb _ _ _ Hport), (in_range_leb _ _ _ Hunit). simpl.
  unfold bind at 1. unfold try_except, bind at 1, call, ret.
  rewrite Hresolved. simpl. rewrite Hdup.
  unfold bind. rewrite probe_from.
  destruct (falsy _); unfold ret; f_equal; trace_eq.
Qed.

End UserStep.

Import MarstekConfigFlow.

(** C3, as the code has it.  The range checks live in the setup step, not in
    the probe: a port outside 1..65535 shows the form again with
    [invalid_port], and with the port in range a unit id outside 1..255
    shows it again with [invalid_unit_id]; in both cases nothing was
    resolved, connected or probed. *)
Theorem out_of_range_rejected_by_step K net translations entries ui :
  (¬ (1 ≤ port_of K ui ≤ 65535) →
   ∃ form, run (async_step_user K net translations entries (Some ui))
           = (Returned (ShowForm "user" form (Some "invalid_port")), []))
  ∧ (1 ≤ port_of K ui ≤ 65535 →
     ¬ (1 ≤ unit_id_of K ui ≤ 255) →
     ∃ form, run (async_step_user K net translations entries (Some ui))
             = (Returned (ShowForm "user" form (Some "invalid_unit_id")), [])).
Proof.
  split.
  - intros Hport. eexists. by apply step_invalid_port.
  - intros Hport Hunit. eexists. by apply step_invalid_unit_id.
Qed.

Lemma out_of_range_rejected_by_step_witness :
  (∃ form, run (async_step_user Examples.K0 Examples.healthy ∅ []
                  (Some Examples.port_0))
           = (Returned (ShowForm "user" form (Some "invalid_port")), []))
  ∧ (∃ form, run (async_step_user Examples.K0 Examples.healthy ∅ []
                    (Some Examples.unit_300))
             = (Returned (ShowForm "user" form (Some "invalid_unit_id")), [])).
Proof.
  split.
  - apply (out_of_range_rejected_by_step Examples.K0 Examples.healthy ∅ []
             Examples.port_0).
    assert (port_of Examples.K0 Examples.port_0 = 0) as -> by reflexivity.
    lia.
  - apply (out_of_range_rejected_by_step Examples.K0 Examples.healthy ∅ []
             Examples.unit_300).
    + assert (port_of Examples.K0 Examples.unit_300 = 502) as -> by reflexivity.
      lia.
    + assert (unit_id_of Examples.K0 Examples.unit_300 = 300) as -> by reflexivity.
      lia.
Defined.

(** The two classes the step catches: with port and unit id in range, a
    host whose resolution raises [socket.gaierror] or [TypeError] shows the
    form again with [invalid_host], and the resolution is the only call
    made.  In every run of the step, a connect is preceded by a resolution
    that succeeded. *)
Theorem unresolved_host_is_invalid_host K net translations entries ui :
  (∀ e, 1 ≤ port_of K ui ≤ 65535 →
        1 ≤ unit_id_of K ui ≤ 255 →
        net_gethostbyname net (host_of ui) = Raised e →
        isinstance e gaierror = true ∨ isinstance e TypeError = true →
        run (async_step_user K net translations entries (Some ui))
        = (Returned (user_form_again K (Some ui) (Some "invalid_host")),
           [EvGetHostByName (host_of ui)]))
  ∧ (∀ h p,
       EvConnect h p ∈ trace_of (async_step_user K net translations entries (Some ui)) →
       net_gethostbyname net (host_of ui) = Returned tt
       ∧ ∃ rest, trace_of (async_step_user K net translations entries (Some ui))
                 = EvGetHostByName (host_of ui) :: rest).
Proof.
  split.
  - intros e Hport Hunit Hraised Hclass. unfold run.
    by rewrite (step_resolution_fails K net translations entries ui e []).
  - intros h p. unfold trace_of.
    destruct (decide (1 ≤ port_of K ui ≤ 65535)) as [Hport|Hport];
      [| rewrite step_invalid_port by done; simpl; by intros ?%elem_of_nil].
    destruct (decide (1 ≤ unit_id_of K ui ≤ 255)) as [Hunit|Hunit];
      [| rewrite step_invalid_unit_id by done; simpl; by intros ?%elem_of_nil].
    unfold run.
    destruct (net_gethostbyname net (host_of ui)) as [[]|e] eqn:Hresolve.
    + destruct (existsb (same_host_and_unit (host_of ui) (unit_id_of K ui)) entries)
        eqn:Hdup.
      * rewrite step_duplicate by done. simpl. eauto.
      * rewrite step_probes by done. simpl. eauto.
    + destruct (isinstance e gaierror) eqn:Hgai.
      { rewrite (step_resolution_fails K net translations entries ui e []) by auto.
        simpl. intros Hin. apply list_elem_of_In in Hin. simpl in Hin.
        intuition discriminate. }
      destruct (isinstance e TypeError) eqn:Htype.
      { rewrite (step_resolution_fails K net translations entries ui e []) by auto.
        simpl. intros Hin. apply list_elem_of_In in Hin. simpl in Hin.
        intuition discriminate. }
      rewrite (step_resolution_other_exception K net translations entries ui e [])
        by done.
      simpl. intros Hin. apply list_elem_of_In in Hin. simpl in Hin.
      intuition discriminate.
Qed.

Lemma in_range_example :
  1 ≤ port_of Examples.K0 Examples.in_range ≤ 65535
  ∧ 1 ≤ unit_id_of Examples.K0 Examples.in_range ≤ 255.
Proof.
  assert (port_of Examples.K0 Examples.in_range = 502) as -> by reflexivity.
  assert (unit_id_of Examples.K0 Examples.in_range = 1) as -> by reflexivity.
  lia.
Qed.

Lemma other_port_example :
  1 ≤ port_of Examples.K0 Examples.other_port ≤ 65535
  ∧ 1 ≤ unit_id_of Examples.K0 Examples.other_port ≤ 255.
Proof.
  assert (port_of Examples.K0 Examples.other_port = 1502) as -> by reflexivity.
  assert (unit_id_of Examples.K0 Examples.other_port = 1) as -> by reflexivity.
  lia.
Qed.

Lemma unresolved_host_is_invalid_host_witness :
  run (async_step_user Examples.K0 Examples.no_dns ∅ [] (Some Examples.in_range))
  = (Returned (ShowForm "user"
                 {| form_host := Some "marstek.local"; form_port := 502;
                    form_unit_id := 1; form_device_version := "v3" |}
                 (Some "invalid_host")),
     [EvGetHostByName (Some "marstek.local")])
  ∧ (net_gethostbyname Examples.healthy (host_of Examples.in_range) = Returned tt
     ∧ ∃ rest,
         trace_of (async_step_user Examples.K0 Examples.healthy ∅ []
                     (Some Examples.in_range))
         = EvGetHostByName (host_of Examples.in_range) :: rest).
Proof.
  split.
  - destruct (unresolved_host_is_invalid_host Examples.K0 Examples.no_dns ∅ []
                Examples.in_range) as [Hfails _].
    apply (Hfails Examples.gai_error);
      [apply in_range_example | apply in_range_example | reflexivity
      | left; reflexivity].
  - destruct (unresolved_host_is_invalid_host Examples.K0 Examples.healthy ∅ []
                Examples.in_range) as [_ Hfirst].
    apply (Hfirst (Some "marstek.local") 502).
    apply list_elem_of_In. right. left. reflexivity.
Defined.

(** C6, where the code falls short.  A host name with an empty label, as in
    [a..b], makes [socket.gethostbyname] raise a [UnicodeError]; the step
    catches [socket.gaierror] and [TypeError] only, so it raises that error
    to its caller instead of answering [invalid_host].  Nothing but the
    resolution was called. *)
Theorem malformed_host_raises :
  run (async_step_user Examples.K0 MoreExamples.idna_failure ∅ []
         (Some MoreExamples.malformed))
  = (Raised MoreExamples.unicode_error, [EvGetHostByName (Some "a..b")]).
Proof.
  unfold run.
  rewrite (step_resolution_other_exception Examples.K0 MoreExamples.idna_failure
             ∅ [] MoreExamples.malformed MoreExamples.unicode_error []);
    [reflexivity | | | reflexivity | reflexivity | reflexivity].
  - assert (port_of Examples.K0 MoreExamples.malformed = 502) as ->
      by reflexivity.
    lia.
  - assert (unit_id_of Examples.K0 MoreExamples.malformed = 1) as ->
      by reflexivity.
    lia.
Qed.

(** C7, as stated, fails where the host of a registered pair no longer
    resolves: the step answers [invalid_host], since it resolves the host
    before it looks at the registered entries. *)
Lemma duplicate_with_unresolved_host :
  existsb (same_host_and_unit (host_of Examples.in_range)
             (unit_id_of Examples.K0 Examples.in_range)) [Examples.entry_1] = true
  ∧ result_of (async_step_user Examples.K0 Examples.no_dns ∅ [Examples.entry_1]
                 (Some Examples.in_range))
    = Returned (ShowForm "user"
                  {| form_host := Some "marstek.local"; form_port := 502;
                     form_unit_id := 1; form_device_version := "v3" |}
                  (Some "invalid_host"))
  ∧ result_of (async_step_user Examples.K0 Examples.no_dns ∅ [Examples.entry_1]
                 (Some Examples.in_range))
    ≠ Returned (Abort "already_configured").
Proof. split; [reflexivity |]. split; [reflexivity | discriminate]. Qed.

(** C7, as the code has it.  For a submission with port and unit id in
    range whose host resolves, and whose host and unit id are those stored
    in some registered entry, the step aborts with [already_configured];
    the resolution is the only call made, so nothing was probed.  The port
    of the entry is not looked at. *)
Theorem duplicate_aborts_without_probe K net translations entries ui entry :
  1 ≤ port_of K ui ≤ 65535 →
  1 ≤ unit_id_of K ui ≤ 255 →
  net_gethostbyname net (host_of ui) = Returned tt →
  entry ∈ entries →
  strs (data entry) !! CONF_HOST = host_of ui →
  ints (data entry) !! CONF_UNIT_ID = Some (unit_id_of K ui) →
  run (async_step_user K net translations entries (Some ui))
  = (Returned (Abort "already_configured"), [EvGetHostByName (host_of ui)]).
Proof.
  intros Hport Hunit Hresolved Hentry Hhost Hid. unfold run.
  rewrite step_duplicate; [reflexivity | done.. |].
  apply existsb_exists. exists entry. split; [by apply list_elem_of_In |].
  unfold same_host_and_unit. by rewrite !bool_decide_eq_true_2.
Qed.

Lemma duplicate_aborts_without_probe_witness :
  run (async_step_user Examples.K0 Examples.healthy ∅ [Examples.entry_1]
         (Some Examples.other_port))
  = (Returned (Abort "already_configured"), [EvGetHostByName (Some "marstek.local")]).
Proof.
  apply (duplicate_aborts_without_probe Examples.K0 Examples.healthy ∅
           [Examples.entry_1] Examples.other_port Examples.entry_1);
    [apply other_port_example | apply other_port_example | reflexivity
    | apply list_elem_of_In; left; reflexivity | reflexivity | reflexivity].
Defined.

(** ** The options step *)

Section OptionsStep.

Import MarstekOptionsFlow.

Variable K : constants.

Lemma Clamp_clamped lo hi v : lo ≤ hi → vol.Clamp lo hi v = clamped lo hi v.
Proof.
  intros Hle. unfold vol.Clamp, clamped.
  destruct (Z.ltb_spec v lo); simpl;
    match goal with |- context [?a <? ?b] => destruct (Z.ltb_spec a b) end; lia.
Qed.

Lemma clamped_in_range lo hi v : lo ≤ v ≤ hi → clamped lo hi v = v.
Proof. unfold clamped. lia. Qed.

Lemma clamped_idemp lo hi v :
  lo ≤ hi → clamped lo hi (clamped lo hi v) = clamped lo hi v.
Proof. unfold clamped. lia. Qed.

Lemma fields_inv key lo hi :
  (key, (lo, hi)) ∈ fields →
  (key = CONF_UNIT_ID ∧ lo = 1 ∧ hi = 255)
  ∨ (key ∈ rate_keys ∧ lo = 1 ∧ hi = 3600).
Proof.
  intros Hin. apply list_elem_of_In in Hin. simpl in Hin.
  destruct Hin as [H|[H|[H|[H|[H|[]]]]]]; injection H as <- <- <-;
    [left; done | right ..]; (split; [| done]);
    apply list_elem_of_In; simpl; tauto.
Qed.

Lemma stored_existing config key :
  stored config key (system_default K key) = existing K config key.
Proof.
  unfold stored, existing.
  destruct (options config !! key); [done |].
  by destruct (ints (data config) !! key).
Qed.

Lemma schema_keys config : vol.keys (schema K config) = CONF_UNIT_ID :: rate_keys.
Proof. reflexivity. Qed.

Lemma schema_accepts config submitted :
  only_fields submitted →
  vol.Schema (schema K config) submitted = Some (validated K config submitted).
Proof.
  intros Hfields. unfold vol.Schema. rewrite schema_keys.
  by rewrite bool_decide_eq_true_2.
Qed.

Lemma schema_refuses config submitted :
  ¬ only_fields submitted → vol.Schema (schema K config) submitted = None.
Proof.
  intros Hfields. unfold vol.Schema. rewrite schema_keys.
  by rewrite bool_decide_eq_false_2.
Qed.

Lemma validated_unit_id config submitted :
  validated K config submitted !! CONF_UNIT_ID
  = Some (vol.Clamp 1 255
            (default (stored config CONF_UNIT_ID (DEFAULT_UNIT_ID K))
               (submitted !! CONF_UNIT_ID))).
Proof. reflexivity. Qed.

Lemma validated_rate config submitted key :
  key ∈ rate_keys →
  validated K config submitted !! key
  = Some (vol.Clamp 1 3600
            (default (stored config key (DEFAULT_SCAN_INTERVALS K key))
               (submitted !! key))).
Proof.
  intros Hin. apply list_elem_of_In in Hin. simpl in Hin.
  destruct Hin as [<-|[<-|[<-|[<-|[]]]]]; reflexivity.
Qed.

Lemma validated_lookup config submitted key lo hi :
  (key, (lo, hi)) ∈ fields →
  validated K config submitted !! key
  = Some (clamped lo hi (default (existing K config key) (submitted !! key))).
Proof.
  intros [(-> & -> & ->)|(Hrate & -> & ->)]%fields_inv.
  - rewrite validated_unit_id, Clamp_clamped by lia.
    by rewrite <- stored_existing.
  - rewrite validated_rate, Clamp_clamped by (done || lia).
    rewrite <- stored_existing. do 4 f_equal.
    apply list_elem_of_In in Hrate. simpl in Hrate.
    destruct Hrate as [<-|[<-|[<-|[<-|[]]]]]; reflexivity.
Qed.

Lemma validated_other config submitted key :
  key ∉ CONF_UNIT_ID :: rate_keys → validated K config submitted !! key = None.
Proof. intros Hkey. by apply not_elem_of_list_to_map_1. Qed.

Lemma existing_with_options config new_options key v :
  new_options !! key = Some v →
  existing K (with_options config new_options) key = v.
Proof. intros Hv. unfold existing. simpl. by rewrite Hv. Qed.

(** Putting the same submission through the form of the entry it has just
    produced gives the same dict. *)
Lemma validated_again config submitted :
  validated K (with_options config (validated K config submitted)) submitted
  = validated K config submitted.
Proof.
  apply map_eq. intros key.
  destruct (decide (key ∈ CONF_UNIT_ID :: rate_keys)) as [Hkey|Hkey];
    [| by rewrite !validated_other].
  assert (∃ lo hi, (key, (lo, hi)) ∈ fields ∧ lo ≤ hi) as (lo & hi & Hfield & Hle).
  { apply list_elem_of_In in Hkey. simpl in Hkey.
    destruct Hkey as [<-|[<-|[<-|[<-|[<-|[]]]]]];
      [exists 1, 255 | exists 1, 3600 ..]; (split; [| lia]);
      apply list_elem_of_In; simpl; tauto. }
  rewrite !(validated_lookup _ _ key lo hi) by done.
  rewrite (existing_with_options config _ key _
             (validated_lookup config submitted key lo hi Hfield)).
  destruct (submitted !! key); simpl; [done |].
  by rewrite clamped_idemp.
Qed.

Lemma reconcile_accepts hass_data config submitted :
  only_fields submitted →
  reconcile K hass_data config submitted
  = match async_step_init K hass_data config (Some (validated K config submitted)) with
    | (_, hass_data', sent) =>
        Some (with_options config (validated K config submitted), hass_data', sent)
    end.
Proof.
  intros Hfields. unfold reconcile. simpl.
  rewrite (schema_accepts config submitted Hfields).
  unfold async_step_init.
  destruct (hass_data !! entry_id config); simpl; [| done].
  by case_bool_decide.
Qed.

Lemma reconcile_refuses hass_data config submitted :
  ¬ only_fields submitted → reconcile K hass_data config submitted = None.
Proof.
  intros Hfields. unfold reconcile. simpl.
  by rewrite (schema_refuses config submitted Hfields).
Qed.

End OptionsStep.

Import MarstekOptionsFlow.

(** C8. A submission of the options form is accepted, and in the options it
    leaves behind each of the five fields is: the submitted value brought
    into the field's range (1..3600 for a rate, 1..255 for the unit id), so
    that a rate of 5000 is stored as 3600 and a unit id of 0 as 1; or, for a
    field the submission leaves out, the value the entry had, from its
    options, else its data, else the fixed default. *)
Theorem submitted_fields_are_clamped K hass_data config submitted :
  only_fields submitted →
  ∃ config' hass_data' sent,
    reconcile K hass_data config submitted = Some (config', hass_data', sent)
    ∧ (∀ key lo hi, (key, (lo, hi)) ∈ fields →
         (∀ v, submitted !! key = Some v →
               options config' !! key = Some (clamped lo hi v))
         ∧ (submitted !! key = None →
            options config' !! key = Some (clamped lo hi (existing K config key)))
         ∧ (submitted !! key = None →
            lo ≤ existing K config key ≤ hi →
            options config' !! key = Some (existing K config key)))
    ∧ (∀ key, key ∈ rate_keys → submitted !! key = Some 5000 →
              options config' !! key = Some 3600)
    ∧ (submitted !! CONF_UNIT_ID = Some 0 →
       options config' !! CONF_UNIT_ID = Some 1).
Proof.
  intros Hfields. rewrite (reconcile_accepts K hass_data config submitted Hfields).
  destruct (async_step_init K hass_data config _) as [[? hass_data'] sent].
  exists (with_options config (validated K config submitted)), hass_data', sent.
  split; [reflexivity |]. simpl. split; [| split].
  - intros key lo hi Hfield.
    rewrite (validated_lookup K config submitted key lo hi Hfield).
    split; [| split].
    + by intros v ->.
    + by intros ->.
    + intros -> Hrange. simpl. by rewrite clamped_in_range.
  - intros key Hrate Hv.
    rewrite (validated_rate K config submitted key Hrate), Hv. reflexivity.
  - intros Hv. rewrite validated_unit_id, Hv. reflexivity.
Qed.

Lemma edited_only_fields : only_fields Examples.edited.
Proof.
  intros k Hk. apply elem_of_dom in Hk as [v Hv].
  unfold Examples.edited in Hv.
  apply lookup_insert_Some in Hv as [[<- _]|[_ Hv]];
    [apply list_elem_of_In; simpl; tauto |].
  apply lookup_singleton_Some in Hv as [<- _].
  apply list_elem_of_In; simpl; tauto.
Qed.

Lemma submitted_fields_are_clamped_witness :
  ∃ config',
    fst <$> (fst <$> reconcile Examples.K0 Examples.polling Examples.fresh_entry
                       Examples.edited)
    = Some config'
    ∧ options config' !! "high" = Some 3600
    ∧ options config' !! CONF_UNIT_ID = Some 1
    ∧ options config' !! "low" = Some 30.
Proof.
  destruct (submitted_fields_are_clamped Examples.K0 Examples.polling
              Examples.fresh_entry Examples.edited edited_only_fields)
    as (config' & hass_data' & sent & Hreconcile & Hfield & Hrate & Hunit).
  exists config'. rewrite Hreconcile. split; [reflexivity |].
  split; [| split].
  - apply Hrate; [apply list_elem_of_In; simpl; tauto | reflexivity].
  - apply Hunit. reflexivity.
  - destruct (Hfield "low" 1 3600) as (_ & _ & Hkept).
    { apply list_elem_of_In; simpl; tauto. }
    apply Hkept; [reflexivity |].
    assert (existing Examples.K0 Examples.fresh_entry "low" = 30) as ->
      by reflexivity.
    lia.
Defined.

(** C9. Reconciling is idempotent: the same submission put to the entry it
    has just produced is accepted again, leaves the same entry and the same
    coordinators, and tells the coordinator nothing it was not told the
    first time. *)
Theorem reconcile_idempotent K hass_data config submitted :
  only_fields submitted →
  ∃ config1 hass_data1 sent1,
    reconcile K hass_data config submitted = Some (config1, hass_data1, sent1)
    ∧ ∃ sent2,
        reconcile K hass_data1 config1 submitted = Some (config1, hass_data1, sent2)
        ∧ ∀ n, n ∈ sent2 → n ∈ sent1.
Proof.
  intros Hfields.
  rewrite (reconcile_accepts K hass_data config submitted Hfields).
  set (ui := validated K config submitted).
  set (config1 := with_options config ui).
  assert (∀ hass_data1,
            reconcile K hass_data1 config1 submitted
            = match async_step_init K hass_data1 config1 (Some ui) with
              | (_, hass_data', sent) => Some (config1, hass_data', sent)
              end) as Hagain.
  { intros hass_data1.
    rewrite (reconcile_accepts K hass_data1 config1 submitted Hfields).
    unfold config1, ui. rewrite validated_again.
    by destruct (async_step_init _ _ _ _) as [[? ?] ?]. }
  assert (∀ d, default d (ui !! CONF_UNIT_ID)
               = vol.Clamp 1 255
                   (default (stored config CONF_UNIT_ID (DEFAULT_UNIT_ID K))
                      (submitted !! CONF_UNIT_ID))) as Hunit.
  { intros d. unfold ui. by rewrite validated_unit_id. }
  unfold async_step_init at 1.
  change (entry_id config) with (entry_id config1).
  destruct (hass_data !! entry_id config1) as [c0|] eqn:Hc0; simpl.
  - rewrite Hunit. case_bool_decide as Hchanged.
    + eexists _, _, _. split; [reflexivity |].
      rewrite Hagain. unfold async_step_init.
      rewrite lookup_insert_eq. simpl. rewrite Hunit.
      rewrite bool_decide_eq_false_2 by (intros Hne; by apply Hne).
      rewrite insert_insert_eq.
      eexists. split; [reflexivity |].
      intros n Hn. apply list_elem_of_In in Hn. apply list_elem_of_In.
      simpl in *. tauto.
    + eexists _, _, _. split; [reflexivity |].
      rewrite Hagain. unfold async_step_init.
      rewrite lookup_insert_eq. simpl. rewrite Hunit.
      rewrite bool_decide_eq_false_2 by (intros Hne; by apply Hne).
      rewrite insert_insert_eq.
      eexists. split; [reflexivity | done].
  - eexists _, _, _. split; [reflexivity |].
    rewrite Hagain. unfold async_step_init. rewrite Hc0.
    eexists. split; [reflexivity | done].
Qed.

Lemma reconcile_idempotent_witness :
  ∃ config1 hass_data1 sent1,
    reconcile Examples.K0 Examples.polling Examples.fresh_entry Examples.edited
    = Some (config1, hass_data1, sent1)
    ∧ ∃ sent2,
        reconcile Examples.K0 hass_data1 config1 Examples.edited
        = Some (config1, hass_data1, sent2)
        ∧ ∀ n, n ∈ sent2 → n ∈ sent1.
Proof.
  apply (reconcile_idempotent Examples.K0 Examples.polling Examples.fresh_entry
           Examples.edited edited_only_fields).
Defined.

(** * Further properties *)

(** ** The probe *)

(** X1. When the connection is up and the read hands back an object that is
    no error, either because [isError()] is false or because it has no
    [isError] at all, the probe returns success. *)
Theorem data_response_is_success net host port unit_id r :
  net_connect net host port = Returned true →
  net_read_holding_registers net host port 32101 1 unit_id = Returned (Some r) →
  rsp_isError r = Some false ∨ rsp_isError r = None →
  result_of (async_test_modbus_connection net host port unit_id) = Returned Success.
Proof.
  intros Hconnect Hread Hok. rewrite result_of_probe.
  unfold probe_value, check_result. rewrite Hconnect, Hread.
  by destruct Hok as [-> | ->].
Qed.

Lemma data_response_is_success_witness :
  result_of (async_test_modbus_connection Examples.healthy Examples.host 502 1)
  = Returned Success
  ∧ result_of (async_test_modbus_connection
                 (Examples.reachable (Returned (Some MoreExamples.bare_response)))
                 Examples.host 502 1)
    = Returned Success.
Proof.
  split.
  - apply (data_response_is_success Examples.healthy Examples.host 502 1
             Examples.data_response); [reflexivity | reflexivity | by left].
  - apply (data_response_is_success
             (Examples.reachable (Returned (Some MoreExamples.bare_response)))
             Examples.host 502 1 MoreExamples.bare_response);
      [reflexivity | reflexivity | by right].
Defined.

(** X2. The calls of the probe: one connect; then, only if [connect()] was
    true, one read of one register at address 32101 addressed to the unit
    id; then the close.  A connect that is false or raises is followed by
    the close alone. *)
Theorem probe_call_sequence net host port unit_id :
  (net_connect net host port = Returned true →
   trace_of (async_test_modbus_connection net host port unit_id)
   = [EvConnect host port; EvReadHoldingRegisters 32101 1 unit_id; EvClose])
  ∧ (net_connect net host port ≠ Returned true →
     trace_of (async_test_modbus_connection net host port unit_id)
     = [EvConnect host port; EvClose]).
Proof.
  rewrite trace_of_probe. unfold probe_calls. split.
  - by intros ->.
  - intros Hconnect. by destruct (net_connect net host port) as [[|]|e].
Qed.

Lemma probe_call_sequence_witness :
  trace_of (async_test_modbus_connection Examples.healthy Examples.host 502 7)
  = [EvConnect Examples.host 502; EvReadHoldingRegisters 32101 1 7; EvClose]
  ∧ trace_of (async_test_modbus_connection MoreExamples.refused Examples.host 502 7)
    = [EvConnect Examples.host 502; EvClose].
Proof.
  destruct (probe_call_sequence Examples.healthy Examples.host 502 7) as [Hup _].
  destruct (probe_call_sequence MoreExamples.refused Examples.host 502 7)
    as [_ Hdown].
  split; [apply Hup; reflexivity | apply Hdown; discriminate].
Defined.

(** X3. What [client.close()] does, return or raise, has no effect on what
    the probe returns: two networks that answer the connect and the read
    alike give the same result. *)
Theorem close_does_not_change_result net net' host port unit_id :
  net_connect net host port = net_connect net' host port →
  net_read_holding_registers net host port 32101 1 unit_id
  = net_read_holding_registers net' host port 32101 1 unit_id →
  result_of (async_test_modbus_connection net host port unit_id)
  = result_of (async_test_modbus_connection net' host port unit_id).
Proof.
  intros Hconnect Hread. rewrite !result_of_probe. unfold probe_value.
  by rewrite Hconnect, Hread.
Qed.

Lemma close_does_not_change_result_witness :
  result_of (async_test_modbus_connection MoreExamples.closing_badly
               Examples.host 502 1)
  = result_of (async_test_modbus_connection Examples.healthy Examples.host 502 1).
Proof.
  apply (close_does_not_change_result MoreExamples.closing_badly Examples.healthy
           Examples.host 502 1); reflexivity.
Defined.

(** X4 is [connect_other_exception] above: an exception from [connect()]
    that is no [OSError] is answered with [cannot_connect], whatever its text
    says. *)
Lemma connect_other_exception_witness :
  result_of (async_test_modbus_connection
               (Examples.unreachable
                  (Raised (Examples.value_error "connection refused")))
               Examples.host 502 1)
  = Returned CannotConnect.
Proof.
  apply (connect_other_exception
           (Examples.unreachable (Raised (Examples.value_error "connection refused")))
           Examples.host 502 1 (Examples.value_error "connection refused"));
    reflexivity.
Defined.

Lemma lower_app a b : Str.lower (a +:+ b) = Str.lower a +:+ Str.lower b.
Proof. induction a as [|c a IH]; simpl; [done | by rewrite IH]. Qed.

Lemma startswith_app p s : Str.startswith p (p +:+ s) = true.
Proof.
  induction p as [|c p IH]; simpl; [done |].
  by rewrite Ascii.eqb_refl, IH.
Qed.

Lemma contains_app needle pre suf :
  Str.contains needle (pre +:+ needle +:+ suf) = true.
Proof.
  induction pre as [|c pre IH]; simpl.
  - destruct (needle +:+ suf) eqn:E; simpl; rewrite <- E, startswith_app; done.
  - rewrite IH. apply orb_true_r.
Qed.

Lemma mentions_in_any_case e pre mid suf phrase :
  exc_str e = pre +:+ mid +:+ suf →
  Str.lower mid = phrase →
  mentions e phrase.
Proof.
  intros Htext <-. unfold mentions. rewrite Htext, !lower_app.
  apply contains_app.
Qed.

(** X5. The text of an [OSError] from [connect()] is searched without regard
    to letter case or position: a text that holds the words permission
    denied anywhere, in any mix of capitals, gives [permission_denied];
    likewise connection refused, and timed out or timeout, when no earlier
    phrase is there. *)
Theorem os_error_text_in_any_case net host port unit_id e pre mid suf :
  net_connect net host port = Raised e →
  isinstance e OSError = true →
  exc_str e = pre +:+ mid +:+ suf →
  (Str.lower mid = "permission denied" →
   result_of (async_test_modbus_connection net host port unit_id)
   = Returned PermissionDenied)
  ∧ (Str.lower mid = "connection refused" →
     ¬ mentions e "permission denied" →
     result_of (async_test_modbus_connection net host port unit_id)
     = Returned ConnectionRefused)
  ∧ (Str.lower mid = "timed out" ∨ Str.lower mid = "timeout" →
     ¬ mentions e "permission denied" →
     ¬ mentions e "connection refused" →
     result_of (async_test_modbus_connection net host port unit_id)
     = Returned TimedOut).
Proof.
  intros Hconnect Hos Htext. rewrite result_of_probe.
  unfold probe_value, classify_oserror. rewrite Hconnect, Hos.
  split; [| split].
  - intros Hmid.
    by rewrite (mentions_in_any_case e pre mid suf _ Htext Hmid).
  - intros Hmid Hperm.
    apply not_true_is_false in Hperm. rewrite Hperm.
    by rewrite (mentions_in_any_case e pre mid suf _ Htext Hmid).
  - intros Hmid Hperm Hrefused.
    apply not_true_is_false in Hperm, Hrefused. rewrite Hperm, Hrefused.
    destruct Hmid as [Hmid|Hmid];
      rewrite (mentions_in_any_case e pre mid suf _ Htext Hmid);
      by rewrite ?orb_true_r.
Qed.

Lemma os_error_text_in_any_case_witness :
  Examples.probe_when (Raised (Examples.os_error "[WinError 5] PERMISSION DENIED."))
  = Returned PermissionDenied
  ∧ Examples.probe_when
      (Raised (Examples.os_error "[Errno 111] Connection refused"))
    = Returned ConnectionRefused
  ∧ Examples.probe_when
      (Raised (Examples.os_error "[Errno 110] Connection timed out"))
    = Returned TimedOut.
Proof.
  unfold Examples.probe_when. split; [| split].
  - destruct (os_error_text_in_any_case
                (Examples.unreachable
                   (Raised (Examples.os_error "[WinError 5] PERMISSION DENIED.")))
                Examples.host 502 1
                (Examples.os_error "[WinError 5] PERMISSION DENIED.")
                "[WinError 5] " "PERMISSION DENIED" "."
                eq_refl eq_refl eq_refl) as (H & _).
    apply H. reflexivity.
  - destruct (os_error_text_in_any_case
                (Examples.unreachable
                   (Raised (Examples.os_error "[Errno 111] Connection refused")))
                Examples.host 502 1
                (Examples.os_error "[Errno 111] Connection refused")
                "[Errno 111] " "Connection refused" ""
                eq_refl eq_refl eq_refl) as (_ & H & _).
    apply H; [reflexivity | discriminate].
  - destruct (os_error_text_in_any_case
                (Examples.unreachable
                   (Raised (Examples.os_error "[Errno 110] Connection timed out")))
                Examples.host 502 1
                (Examples.os_error "[Errno 110] Connection timed out")
                "[Errno 110] Connection " "timed out" ""
                eq_refl eq_refl eq_refl) as (_ & _ & H).
    apply H; [left; reflexivity | discriminate | discriminate].
Defined.

(** ** The setup step *)

Lemma probe_value_not_empty net host port unit_id :
  falsy (probe_value net host port unit_id) = true →
  probe_value net host port unit_id = Success.
Proof.
  unfold probe_value, classify_oserror, check_result.
  repeat match goal with
         | |- context [match ?x with _ => _ end] => destruct x
         end; simpl; done.
Qed.

Lemma duplicate_found host unit_id entries :
  existsb (same_host_and_unit host unit_id) entries = true
  ↔ ∃ entry, entry ∈ entries
             ∧ strs (data entry) !! CONF_HOST = host
             ∧ ints (data entry) !! CONF_UNIT_ID = Some unit_id.
Proof.
  rewrite existsb_exists. unfold same_host_and_unit.
  split; intros (entry & Hin & Hsame); exists entry.
  - apply andb_true_iff in Hsame as [?%bool_decide_eq_true ?%bool_decide_eq_true].
    by rewrite list_elem_of_In.
  - destruct Hsame as [Hhost Hunit]. split; [by apply list_elem_of_In |].
    by rewrite !bool_decide_eq_true_2.
Qed.

Import StepCases.

Lemma step_cases K net translations entries ui :
  step_case K net translations entries ui
    (result_of (async_step_user K net translations entries (Some ui)))
    (trace_of (async_step_user K net translations entries (Some ui))).
Proof.
  unfold result_of, trace_of.
  destruct (decide (1 ≤ port_of K ui ≤ 65535)) as [Hport|Hport];
    [| rewrite step_invalid_port by done; by constructor].
  destruct (decide (1 ≤ unit_id_of K ui ≤ 255)) as [Hunit|Hunit];
    [| rewrite step_invalid_unit_id by done; by constructor].
  unfold run.
  destruct (net_gethostbyname net (host_of ui)) as [[]|e] eqn:Hresolve.
  - destruct (existsb (same_host_and_unit (host_of ui) (unit_id_of K ui)) entries)
      eqn:Hdup.
    + rewrite step_duplicate by done. by constructor.
    + rewrite step_probes by done. simpl.
      destruct (falsy (probe_value net (host_of ui) (port_of K ui)
                         (unit_id_of K ui))) eqn:Hfalsy.
      * apply case_created; try done. by apply probe_value_not_empty.
      * destruct (probe_value net (host_of ui) (port_of K ui) (unit_id_of K ui))
          as [key|] eqn:Hvalue; [| discriminate].
        apply case_probe_failed; try done.
        intros ->. discriminate.
  - destruct (isinstance e gaierror) eqn:Hgai.
    { rewrite (step_resolution_fails K net translations entries ui e []) by auto.
      apply (case_invalid_host _ _ _ _ _ e); auto. }
    destruct (isinstance e TypeError) eqn:Htype.
    { rewrite (step_resolution_fails K net translations entries ui e []) by auto.
      apply (case_invalid_host _ _ _ _ _ e); auto. }
    rewrite (step_resolution_other_exception K net translations entries ui e [])
      by done.
    by apply case_raised.
Qed.

Lemma new_entry_data_lookup host port device_version unit_id :
  strs (new_entry_data host port device_version unit_id) !! CONF_HOST = host
  ∧ ints (new_entry_data host port device_version unit_id) !! CONF_PORT = Some port
  ∧ ints (new_entry_data host port device_version unit_id) !! CONF_UNIT_ID
    = Some unit_id
  ∧ strs (new_entry_data host port device_version unit_id) !! CONF_DEVICE_VERSION
    = Some device_version.
Proof. by destruct host. Qed.

(** X6. A submission with port and unit id in range, whose host resolves,
    that repeats no registered host and unit id, and whose probe reports
    success, creates an entry.  Its title is the translated title of the
    step, or Marstek Venus Modbus without one; its data give back the host,
    port, unit id and device version of the submission, the defaults of
    [const.py] standing in for a port, unit id or version left out. *)
Theorem step_creates_entry K net translations entries ui :
  1 ≤ port_of K ui ≤ 65535 →
  1 ≤ unit_id_of K ui ≤ 255 →
  net_gethostbyname net (host_of ui) = Returned tt →
  (∀ entry, entry ∈ entries →
            strs (data entry) !! CONF_HOST = host_of ui →
            ints (data entry) !! CONF_UNIT_ID ≠ Some (unit_id_of K ui)) →
  result_of (async_test_modbus_connection net (host_of ui) (port_of K ui)
               (unit_id_of K ui)) = Returned Success →
  ∃ d,
    result_of (async_step_user K net translations entries (Some ui))
    = Returned (CreateEntry
                  (default "Marstek Venus Modbus"
                     (translations !! "config.step.user.title")) d)
    ∧ strs d !! CONF_HOST = host_of ui
    ∧ ints d !! CONF_PORT = Some (default (DEFAULT_PORT K) (ints ui !! CONF_PORT))
    ∧ ints d !! CONF_UNIT_ID
      = Some (default (DEFAULT_UNIT_ID K) (ints ui !! CONF_UNIT_ID))
    ∧ strs d !! CONF_DEVICE_VERSION
      = Some (default (default "" (head (SUPPORTED_VERSIONS K)))
                (strs ui !! CONF_DEVICE_VERSION)).
Proof.
  intros Hport Hunit Hresolved Hfresh Hprobe.
  rewrite result_of_probe in Hprobe. injection Hprobe as Hprobe.
  exists (new_entry_data (host_of ui) (port_of K ui) (device_version_of K ui)
            (unit_id_of K ui)).
  split; [| apply new_entry_data_lookup].
  unfold result_of, run. rewrite step_probes; try done.
  - simpl. by rewrite Hprobe.
  - apply not_true_is_false. intros (entry & Hin & Hhost & Hid)%duplicate_found.
    by apply (Hfresh entry).
Qed.

Lemma step_creates_entry_witness :
  ∃ d,
    result_of (async_step_user Examples.K0 Examples.healthy ∅ []
                 (Some Examples.in_range))
    = Returned (CreateEntry "Marstek Venus Modbus" d)
    ∧ strs d !! CONF_HOST = Some "marstek.local"
    ∧ ints d !! CONF_PORT = Some 502
    ∧ ints d !! CONF_UNIT_ID = Some 1
    ∧ strs d !! CONF_DEVICE_VERSION = Some "v3".
Proof.
  assert (∀ entry : config_entry, entry ∈ [] →
            strs (data entry) !! CONF_HOST = host_of Examples.in_range →
            ints (data entry) !! CONF_UNIT_ID
            ≠ Some (unit_id_of Examples.K0 Examples.in_range)) as Hfresh
    by (by intros entry ?%elem_of_nil).
  exact (step_creates_entry Examples.K0 Examples.healthy ∅ [] Examples.in_range
           (proj1 in_range_example) (proj2 in_range_example) eq_refl Hfresh
           eq_refl).
Defined.

(** X7. The step creates an entry only for a submission whose port is within
    1..65535 and whose unit id is within 1..255, whose host resolved, that
    repeats no registered host and unit id, and whose probe reported
    success; the port and unit id stored in the entry are those. *)
Theorem created_entry_was_checked K net translations entries ui title d :
  result_of (async_step_user K net translations entries (Some ui))
  = Returned (CreateEntry title d) →
  1 ≤ port_of K ui ≤ 65535
  ∧ 1 ≤ unit_id_of K ui ≤ 255
  ∧ net_gethostbyname net (host_of ui) = Returned tt
  ∧ (∀ entry, entry ∈ entries →
              strs (data entry) !! CONF_HOST = host_of ui →
              ints (data entry) !! CONF_UNIT_ID ≠ Some (unit_id_of K ui))
  ∧ result_of (async_test_modbus_connection net (host_of ui) (port_of K ui)
                 (unit_id_of K ui)) = Returned Success
  ∧ ints d !! CONF_PORT = Some (port_of K ui)
  ∧ ints d !! CONF_UNIT_ID = Some (unit_id_of K ui)
  ∧ strs d !! CONF_HOST = host_of ui.
Proof.
  intros Hresult.
  pose proof (step_cases K net translations entries ui) as Hcase.
  rewrite Hresult in Hcase.
  inversion Hcase as [| | | | |Hport Hunit Hresolved Hdup Hprobe [Htitle Hd] Htrace|];
    subst d.
  destruct (new_entry_data_lookup (host_of ui) (port_of K ui)
              (device_version_of K ui) (unit_id_of K ui))
    as (Hhost' & Hport' & Hunit' & _).
  split; [done |]. split; [done |]. split; [done |]. split.
  { intros entry Hin Hhost Hid.
    assert (existsb (same_host_and_unit (host_of ui) (unit_id_of K ui)) entries
            = true) as Hfound by (apply duplicate_found; eauto).
    congruence. }
  split; [rewrite result_of_probe; by rewrite Hprobe |].
  done.
Qed.

Lemma created_entry_was_checked_witness :
  1 ≤ port_of Examples.K0 Examples.in_range ≤ 65535
  ∧ 1 ≤ unit_id_of Examples.K0 Examples.in_range ≤ 255.
Proof.
  assert (result_of (async_step_user Examples.K0 Examples.healthy ∅ []
                       (Some Examples.in_range))
          = Returned (CreateEntry "Marstek Venus Modbus"
                        (new_entry_data (Some "marstek.local") 502 "v3" 1)))
    as Hcreated by (vm_compute; reflexivity).
  destruct (created_entry_was_checked Examples.K0 Examples.healthy ∅ []
              Examples.in_range "Marstek Venus Modbus"
              (new_entry_data (Some "marstek.local") 502 "v3" 1) Hcreated)
    as (Hport & Hunit & _).
  split; [exact Hport | exact Hunit].
Defined.

(** X8. With the checks before it passed, a probe that reports an error
    shows the form again under that error key: no entry is created, and the
    connection the probe opened has been closed. *)
Theorem probe_error_shows_form K net translations entries ui key :
  1 ≤ port_of K ui ≤ 65535 →
  1 ≤ unit_id_of K ui ≤ 255 →
  net_gethostbyname net (host_of ui) = Returned tt →
  (∀ entry, entry ∈ entries →
            strs (data entry) !! CONF_HOST = host_of ui →
            ints (data entry) !! CONF_UNIT_ID ≠ Some (unit_id_of K ui)) →
  result_of (async_test_modbus_connection net (host_of ui) (port_of K ui)
               (unit_id_of K ui)) = Returned (Some key) →
  (∃ form, result_of (async_step_user K net translations entries (Some ui))
           = Returned (ShowForm "user" form (Some key)))
  ∧ last (trace_of (async_step_user K net translations entries (Some ui)))
    = Some EvClose.
Proof.
  intros Hport Hunit Hresolved Hfresh Hprobe.
  rewrite result_of_probe in Hprobe. injection Hprobe as Hprobe.
  assert (existsb (same_host_and_unit (host_of ui) (unit_id_of K ui)) entries
          = false) as Hdup.
  { apply not_true_is_false. intros (entry & Hin & Hhost & Hid)%duplicate_found.
    by apply (Hfresh entry). }
  destruct (step_cases K net translations entries ui)
    as [| | | | | |key']; unfold Success in *; try lia; try congruence.
  assert (key' = key) as -> by congruence.
  split; [eexists; reflexivity |].
  unfold probe_calls. by destruct (net_connect net _ _) as [[|]|].
Qed.

Lemma probe_error_shows_form_witness :
  (∃ form, result_of (async_step_user Examples.K0 MoreExamples.refused ∅ []
                        (Some Examples.in_range))
           = Returned (ShowForm "user" form (Some "cannot_connect")))
  ∧ last (trace_of (async_step_user Examples.K0 MoreExamples.refused ∅ []
                      (Some Examples.in_range)))
    = Some EvClose.
Proof.
  apply (probe_error_shows_form Examples.K0 MoreExamples.refused ∅ []
           Examples.in_range "cannot_connect");
    [apply in_range_example | apply in_range_example | reflexivity
    | by intros entry ?%elem_of_nil | reflexivity].
Defined.

(** X9. The step aborts only with [already_configured], and exactly when the
    port and unit id are in range, the host resolves, and some registered
    entry stores the host and the unit id of the submission. *)
Theorem abort_iff_duplicate K net translations entries ui reason :
  result_of (async_step_user K net translations entries (Some ui))
  = Returned (Abort reason)
  ↔ reason = "already_configured"
    ∧ 1 ≤ port_of K ui ≤ 65535
    ∧ 1 ≤ unit_id_of K ui ≤ 255
    ∧ net_gethostbyname net (host_of ui) = Returned tt
    ∧ ∃ entry, entry ∈ entries
               ∧ strs (data entry) !! CONF_HOST = host_of ui
               ∧ ints (data entry) !! CONF_UNIT_ID = Some (unit_id_of K ui).
Proof.
  split.
  - destruct (step_cases K net translations entries ui)
      as [| | | |Hport Hunit Hresolved Hdup| |]; try discriminate.
    intros [= <-]. by apply duplicate_found in Hdup.
  - intros (-> & Hport & Hunit & Hresolved & Hdup%duplicate_found).
    unfold result_of, run. by rewrite step_duplicate.
Qed.

Lemma abort_iff_duplicate_witness :
  result_of (async_step_user Examples.K0 Examples.healthy ∅ [Examples.entry_1]
               (Some Examples.in_range))
  = Returned (Abort "already_configured").
Proof.
  apply (abort_iff_duplicate Examples.K0 Examples.healthy ∅ [Examples.entry_1]
           Examples.in_range "already_configured").
  split; [reflexivity |]. split; [apply in_range_example |].
  split; [apply in_range_example |]. split; [reflexivity |].
  exists Examples.entry_1.
  split; [apply list_elem_of_In; left; reflexivity |]. split; reflexivity.
Defined.

Lemma or_int_in_range x d : 1 ≤ default d x → or_int x d = default d x.
Proof.
  unfold or_int. destruct x as [n|]; simpl; [| done].
  intros Hn. case_bool_decide; [lia | done].
Qed.

(** X10. Whenever the step answers a submission by showing the form, the
    form is that of step [user], it carries an error, and its fields are
    filled with what the step read from the submission: the port and the
    unit id always, the host and the device version when they were given
    and not empty. *)
Theorem shown_form_keeps_submission K net translations entries ui
    step_id form errors :
  result_of (async_step_user K net translations entries (Some ui))
  = Returned (ShowForm step_id form errors) →
  step_id = "user"
  ∧ is_Some errors
  ∧ form_port form = port_of K ui
  ∧ form_unit_id form = unit_id_of K ui
  ∧ (∀ h, host_of ui = Some h → h ≠ "" → form_host form = Some h)
  ∧ (∀ v, strs ui !! CONF_DEVICE_VERSION = Some v → v ≠ "" →
          form_device_version form = v).
Proof.
  assert (∀ errs : option string,
            1 ≤ port_of K ui ≤ 65535 → 1 ≤ unit_id_of K ui ≤ 255 →
            is_Some errs →
            user_form_again K (Some ui) errs = ShowForm step_id form errors →
            step_id = "user"
            ∧ is_Some errors
            ∧ form_port form = port_of K ui
            ∧ form_unit_id form = unit_id_of K ui
            ∧ (∀ h, host_of ui = Some h → h ≠ "" → form_host form = Some h)
            ∧ (∀ v, strs ui !! CONF_DEVICE_VERSION = Some v → v ≠ "" →
                    form_device_version form = v)) as Hagain.
  { intros errs Hport Hunit Herrs. unfold user_form_again. simpl.
    intros [= <- <- <-]. simpl.
    split; [done |]. split; [done |].
    split; [by apply or_int_in_range; unfold port_of in Hport; lia |].
    split; [by apply or_int_in_range; unfold unit_id_of in Hunit; lia |].
    split.
    - unfold host_of. intros h -> Hh. simpl. by rewrite bool_decide_eq_false_2.
    - intros v -> Hv. simpl. by rewrite bool_decide_eq_false_2. }
  destruct (step_cases K net translations entries ui)
    as [Hport|Hport Hunit|e Hport Hunit|e Hport Hunit|Hport Hunit
       |Hport Hunit|key Hport Hunit];
    try discriminate.
  - intros [= <- <- <-]. simpl. repeat split; try done.
    intros v Hv _. unfold device_version_of. by rewrite Hv.
  - intros [= <- <- <-]. simpl. repeat split; try done.
    intros v Hv _. unfold device_version_of. by rewrite Hv.
  - intros Hform.
    apply (Hagain (Some "invalid_host")); [done | done | by eexists | congruence].
  - intros Hform.
    apply (Hagain (Some key)); [done | done | by eexists | congruence].
Qed.

Lemma shown_form_keeps_submission_witness :
  form_port
    {| form_host := Some "marstek.local"; form_port := 502; form_unit_id := 1;
       form_device_version := "v3" |}
  = port_of Examples.K0 Examples.in_range.
Proof.
  assert (result_of (async_step_user Examples.K0 MoreExamples.refused ∅ []
                       (Some Examples.in_range))
          = Returned (ShowForm "user"
                        {| form_host := Some "marstek.local"; form_port := 502;
                           form_unit_id := 1; form_device_version := "v3" |}
                        (Some "cannot_connect")))
    as Hshown by (vm_compute; reflexivity).
  destruct (shown_form_keeps_submission Examples.K0 MoreExamples.refused ∅ []
              Examples.in_range _ _ _ Hshown) as (_ & _ & Hport & _).
  exact Hport.
Defined.

(** X11. The step raises only what the resolution of the host raised and it
    does not catch: with port and unit id in range, an exception that is
    neither a [socket.gaierror] nor a [TypeError].  The resolution is then
    the only call that was made. *)
Theorem step_raises_iff K net translations entries ui e :
  (result_of (async_step_user K net translations entries (Some ui)) = Raised e
   ↔ 1 ≤ port_of K ui ≤ 65535
     ∧ 1 ≤ unit_id_of K ui ≤ 255
     ∧ net_gethostbyname net (host_of ui) = Raised e
     ∧ isinstance e gaierror = false
     ∧ isinstance e TypeError = false)
  ∧ (result_of (async_step_user K net translations entries (Some ui)) = Raised e →
     trace_of (async_step_user K net translations entries (Some ui))
     = [EvGetHostByName (host_of ui)]).
Proof.
  split; [split |].
  - destruct (step_cases K net translations entries ui)
      as [| | |e' Hport Hunit Hraised Hgai Htype| | |]; try discriminate.
    by intros [= <-].
  - intros (Hport & Hunit & Hraised & Hgai & Htype).
    unfold result_of, run.
    by rewrite (step_resolution_other_exception K net translations entries ui e []).
  - by destruct (step_cases K net translations entries ui); try discriminate.
Qed.

Lemma step_raises_iff_witness :
  result_of (async_step_user Examples.K0 MoreExamples.bad_label ∅ []
               (Some Examples.in_range))
  = Raised (Examples.value_error "label empty or too long")
  ∧ trace_of (async_step_user Examples.K0 MoreExamples.bad_label ∅ []
                (Some Examples.in_range))
    = [EvGetHostByName (host_of Examples.in_range)].
Proof.
  destruct (step_raises_iff Examples.K0 MoreExamples.bad_label ∅ []
              Examples.in_range (Examples.value_error "label empty or too long"))
    as [[_ Hraises] Htrace].
  assert (result_of (async_step_user Examples.K0 MoreExamples.bad_label ∅ []
                       (Some Examples.in_range))
          = Raised (Examples.value_error "label empty or too long")) as Hresult.
  { apply Hraises. split; [apply in_range_example |].
    split; [apply in_range_example |]. split; [reflexivity |].
    split; reflexivity. }
  split; [exact Hresult | exact (Htrace Hresult)].
Defined.

(** X12. An entry the step has created stands in the way of a later
    submission of the same host and unit id.  With that entry among the
    registered ones, whatever its id and options, and on whatever network
    and with whatever translations the later submission is handled, the
    step aborts with [already_configured] whenever the host resolves at
    that time and the port named is within 1..65535. *)
Theorem created_entry_blocks_resubmission K net translations entries ui title d
    net' translations' entries' ui' id opts :
  result_of (async_step_user K net translations entries (Some ui))
  = Returned (CreateEntry title d) →
  {| entry_id := id; data := d; options := opts |} ∈ entries' →
  host_of ui' = host_of ui →
  unit_id_of K ui' = unit_id_of K ui →
  1 ≤ port_of K ui' ≤ 65535 →
  net_gethostbyname net' (host_of ui') = Returned tt →
  result_of (async_step_user K net' translations' entries' (Some ui'))
  = Returned (Abort "already_configured").
Proof.
  intros Hcreated Hin Hhost Hunit' Hport' Hresolved'.
  pose proof (step_cases K net translations entries ui) as Hcase.
  rewrite Hcreated in Hcase.
  inversion Hcase as [| | | | |Hport Hunit Hresolved Hdup Hprobe [Htitle Hd] Htrace|];
    subst d.
  unfold result_of, run. rewrite step_duplicate; try done.
  - by rewrite Hunit'.
  - apply duplicate_found. eexists. split; [exact Hin |]. simpl.
    destruct (new_entry_data_lookup (host_of ui) (port_of K ui)
                (device_version_of K ui) (unit_id_of K ui))
      as (Hhost_d & _ & Hunit_d & _).
    by rewrite Hhost, Hunit'.
Qed.

Lemma created_entry_blocks_resubmission_witness :
  result_of (async_step_user Examples.K0 MoreExamples.refused ∅
               [Examples.entry_1; MoreExamples.created]
               (Some Examples.other_port))
  = Returned (Abort "already_configured").
Proof.
  assert (result_of (async_step_user Examples.K0 Examples.healthy ∅ []
                       (Some Examples.in_range))
          = Returned (CreateEntry "Marstek Venus Modbus"
                        (new_entry_data (Some "marstek.local") 502 "v3" 1)))
    as Hcreated by (vm_compute; reflexivity).
  apply (created_entry_blocks_resubmission Examples.K0 Examples.healthy ∅ []
           Examples.in_range _ _ MoreExamples.refused ∅
           [Examples.entry_1; MoreExamples.created]
           Examples.other_port "entry-2" ∅ Hcreated);
    [apply list_elem_of_In; right; left; reflexivity | reflexivity | reflexivity
    | apply other_port_example | reflexivity].
Defined.

(** X13. Every run of the step on a submission opens at most one connection
    and closes as many as it opens. *)
Theorem step_closes_what_it_opens K net translations entries ui :
  List.length (List.filter is_connect
                 (trace_of (async_step_user K net translations entries (Some ui))))
  = List.length (List.filter is_close
                   (trace_of (async_step_user K net translations entries (Some ui))))
  ∧ (List.length (List.filter is_connect
                    (trace_of (async_step_user K net translations entries
                                 (Some ui)))) ≤ 1)%nat.
Proof.
  destruct (step_cases K net translations entries ui); simpl;
    try (split; [reflexivity | lia]);
    unfold probe_calls; destruct (net_connect net _ _) as [[|]|]; simpl;
    (split; [reflexivity | lia]).
Qed.

(** X14. The step never connects or reads outside the ranges it checks: a
    connect it makes goes to the host and port of the submission with the
    port within 1..65535, and a read it makes asks for one register at
    32101 from the unit id of the submission, within 1..255. *)
Theorem step_calls_are_in_range K net translations entries ui :
  (∀ h p,
     EvConnect h p ∈ trace_of (async_step_user K net translations entries (Some ui)) →
     h = host_of ui ∧ p = port_of K ui ∧ 1 ≤ p ≤ 65535)
  ∧ (∀ address count slave,
       EvReadHoldingRegisters address count slave
       ∈ trace_of (async_step_user K net translations entries (Some ui)) →
       address = 32101 ∧ count = 1
       ∧ slave = unit_id_of K ui ∧ 1 ≤ slave ≤ 255).
Proof.
  destruct (step_cases K net translations entries ui);
    (split; [intros h p Hin | intros address count slave Hin]);
    apply list_elem_of_In in Hin; simpl in Hin;
    try (intuition discriminate);
    unfold probe_calls in Hin;
    destruct (net_connect net _ _) as [[|]|]; simpl in Hin;
    repeat (destruct Hin as [Hin|Hin]; try discriminate; try contradiction);
    injection Hin as <- <-; try subst; done.
Qed.

Lemma step_calls_are_in_range_witness :
  ∃ p, EvConnect (Some "marstek.local") p
       ∈ trace_of (async_step_user Examples.K0 Examples.healthy ∅ []
                     (Some Examples.in_range))
       ∧ 1 ≤ p ≤ 65535.
Proof.
  destruct (step_calls_are_in_range Examples.K0 Examples.healthy ∅ []
              Examples.in_range) as [Hconnect _].
  assert (EvConnect (Some "marstek.local") 502
          ∈ trace_of (async_step_user Examples.K0 Examples.healthy ∅ []
                        (Some Examples.in_range))) as Hin
    by (apply list_elem_of_In; right; left; reflexivity).
  exists 502. split; [exact Hin |].
  destruct (Hconnect _ _ Hin) as (_ & _ & Hrange). exact Hrange.
Defined.

(** ** The options step *)

Section OptionsStepMore.

Import MarstekOptionsFlow.

Variable K : constants.

Lemma min_fold_spec (l : list Z) :
  match foldr (λ v acc, Some (match acc with Some a => Z.min v a | None => v end))
          None l with
  | None => l = []
  | Some m => (∀ v, v ∈ l → m ≤ v) ∧ m ∈ l
  end.
Proof.
  induction l as [|x l IH]; simpl; [done |].
  destruct (foldr _ None l) as [a|].
  - destruct IH as [Hle Hin]. split.
    + intros v [->|Hv]%elem_of_cons; [lia |]. specialize (Hle v Hv). lia.
    + destruct (Z.min_spec x a) as [[_ ->]|[_ ->]];
        [apply list_elem_of_here | by apply list_elem_of_further].
  - subst l. split; [| apply list_elem_of_here].
    intros v [->|Hv]%elem_of_cons; [lia | by apply elem_of_nil in Hv].
Qed.

Lemma min_value_spec (d : gmap string Z) :
  match min_value d with
  | None => d = ∅
  | Some m => (∀ k v, d !! k = Some v → m ≤ v) ∧ ∃ k, d !! k = Some m
  end.
Proof.
  unfold min_value. pose proof (min_fold_spec (map_to_list d).*2) as Hfold.
  destruct (foldr _ None _) as [m|].
  - destruct Hfold as [Hle Hin]. split.
    + intros k v Hkv. apply Hle. apply list_elem_of_fmap. exists (k, v).
      split; [done |]. by apply elem_of_map_to_list.
    + apply list_elem_of_fmap in Hin as ([k v] & -> & Hkv).
      exists k. by apply elem_of_map_to_list.
  - apply fmap_nil_inv in Hfold. by apply map_to_list_empty_iff.
Qed.

Lemma defaults_lookup config key :
  defaults K config !! key
  = if bool_decide (key ∈ rate_keys)
    then Some (stored config key (DEFAULT_SCAN_INTERVALS K key))
    else None.
Proof.
  case_bool_decide as Hkey.
  - apply list_elem_of_In in Hkey. simpl in Hkey.
    destruct Hkey as [<-|[<-|[<-|[<-|[]]]]]; reflexivity.
  - by apply not_elem_of_list_to_map_1.
Qed.

End OptionsStepMore.

(** X15. The step with a submission stores the submitted dict as it is, and
    when a coordinator is registered for the entry it leaves that
    coordinator polling the unit id of the submission (the stored one when
    the submission has none) and every other coordinator as it was.  The
    coordinator is always sent the scan intervals, and the unit id only when
    it changes.  Without a coordinator nothing is sent. *)
Theorem step_init_tells_coordinator K hass_data config ui :
  let new_unit_id := default (default_unit_id K config) (ui !! CONF_UNIT_ID) in
  (∀ c, hass_data !! entry_id config = Some c →
        ∃ hass_data',
          async_step_init K hass_data config (Some ui)
          = (OptionsCreateEntry ui, hass_data',
             UpdateScanIntervals ui
               :: (if bool_decide (new_unit_id = client_unit_id c) then []
                   else [SetClientUnitId new_unit_id]))
          ∧ client_unit_id <$> hass_data' !! entry_id config = Some new_unit_id
          ∧ ∀ id, id ≠ entry_id config → hass_data' !! id = hass_data !! id)
  ∧ (hass_data !! entry_id config = None →
     async_step_init K hass_data config (Some ui)
     = (OptionsCreateEntry ui, hass_data, [])).
Proof.
  intros new_unit_id. split.
  - intros c Hc. unfold async_step_init. rewrite Hc. simpl.
    fold new_unit_id.
    destruct (decide (new_unit_id = client_unit_id c)) as [Heq|Hne].
    + rewrite bool_decide_eq_false_2 by (intros Hne; by apply Hne).
      rewrite bool_decide_eq_true_2 by done.
      eexists. split; [reflexivity |]. split.
      * rewrite lookup_insert_eq. simpl. by rewrite Heq.
      * intros id Hid. by rewrite lookup_insert_ne.
    + rewrite bool_decide_eq_true_2 by done.
      rewrite bool_decide_eq_false_2 by done.
      eexists. split; [reflexivity |]. split.
      * by rewrite lookup_insert_eq.
      * intros id Hid. by rewrite lookup_insert_ne.
  - intros Hc. unfold async_step_init. by rewrite Hc.
Qed.

Lemma step_init_tells_coordinator_witness :
  (∃ hass_data',
     async_step_init Examples.K0 Examples.polling Examples.fresh_entry
       (Some {[ CONF_UNIT_ID := 7 ]})
     = (OptionsCreateEntry {[ CONF_UNIT_ID := 7 ]}, hass_data',
        [UpdateScanIntervals {[ CONF_UNIT_ID := 7 ]}; SetClientUnitId 7])
     ∧ client_unit_id <$> hass_data' !! "entry-1" = Some 7
     ∧ ∀ id, id ≠ "entry-1" → hass_data' !! id = Examples.polling !! id)
  ∧ async_step_init Examples.K0 ∅ Examples.fresh_entry
      (Some {[ CONF_UNIT_ID := 7 ]})
    = (OptionsCreateEntry {[ CONF_UNIT_ID := 7 ]}, ∅, []).
Proof.
  destruct (step_init_tells_coordinator Examples.K0 Examples.polling
              Examples.fresh_entry {[ CONF_UNIT_ID := 7 ]}) as [Hpresent _].
  destruct (step_init_tells_coordinator Examples.K0 ∅
              Examples.fresh_entry {[ CONF_UNIT_ID := 7 ]}) as [_ Habsent].
  split.
  - exact (Hpresent {| client_unit_id := 1 |} eq_refl).
  - exact (Habsent eq_refl).
Defined.

(** X16. Called without input, the step shows form [init] with no error,
    sends nothing and leaves the coordinators alone; the number it gives as
    lowest is the smallest of the four scan intervals the form offers as
    defaults: none of them is below it and one of them equals it. *)
Theorem lowest_is_smallest_default K hass_data config :
  ∃ m,
    async_step_init K hass_data config None
    = (OptionsShowForm "init" (schema K config) None (Some m), hass_data, [])
    ∧ (∀ key, key ∈ rate_keys →
              m ≤ stored config key (DEFAULT_SCAN_INTERVALS K key))
    ∧ (∃ key, key ∈ rate_keys
              ∧ m = stored config key (DEFAULT_SCAN_INTERVALS K key)).
Proof.
  unfold async_step_init. simpl.
  pose proof (min_value_spec (defaults K config)) as Hmin.
  destruct (min_value (defaults K config)) as [m|].
  - exists m. destruct Hmin as [Hle (key & Hkey)].
    split; [reflexivity |]. split.
    + intros k Hk. apply (Hle k).
      by rewrite defaults_lookup, bool_decide_eq_true_2.
    + exists key. rewrite defaults_lookup in Hkey.
      case_bool_decide; [| discriminate]. split; [done | congruence].
  - exfalso.
    assert (defaults K config !! "high" = None) as Hhigh
      by (rewrite Hmin; apply lookup_empty).
    rewrite defaults_lookup in Hhigh. discriminate.
Qed.

(** X17. After a submission the schema accepts, the options of the entry
    hold exactly the five fields, each within its range, whatever was stored
    or submitted before; the id and the data of the entry are untouched. *)
Theorem reconciled_options_in_range K hass_data config submitted :
  only_fields submitted →
  ∃ config' hass_data' sent,
    reconcile K hass_data config submitted = Some (config', hass_data', sent)
    ∧ (∀ key lo hi, (key, (lo, hi)) ∈ fields →
                    ∃ v, options config' !! key = Some v ∧ lo ≤ v ≤ hi)
    ∧ (∀ key, key ∉ CONF_UNIT_ID :: rate_keys → options config' !! key = None)
    ∧ entry_id config' = entry_id config
    ∧ data config' = data config.
Proof.
  intros Hfields. rewrite (reconcile_accepts K hass_data config submitted Hfields).
  destruct (async_step_init K hass_data config _) as [[? hass_data'] sent].
  exists (with_options config (validated K config submitted)), hass_data', sent.
  split; [reflexivity |]. simpl. split; [| split; [| done]].
  - intros key lo hi Hfield.
    rewrite (validated_lookup K config submitted key lo hi Hfield).
    eexists. split; [reflexivity |].
    apply fields_inv in Hfield as [(_ & -> & ->)|(_ & -> & ->)];
      unfold clamped; lia.
  - intros key Hkey. by apply validated_other.
Qed.

Lemma reconciled_options_in_range_witness :
  ∃ config',
    fst <$> (fst <$> reconcile Examples.K0 Examples.polling Examples.fresh_entry
                       Examples.edited)
    = Some config'
    ∧ (∃ v, options config' !! "medium" = Some v ∧ 1 ≤ v ≤ 3600)
    ∧ options config' !! CONF_HOST = None.
Proof.
  destruct (reconciled_options_in_range Examples.K0 Examples.polling
              Examples.fresh_entry Examples.edited edited_only_fields)
    as (config' & hass_data' & sent & Hreconcile & Hrange & Hother & _).
  exists config'. rewrite Hreconcile. split; [reflexivity |]. split.
  - apply (Hrange "medium" 1 3600). apply list_elem_of_In. simpl. tauto.
  - apply Hother. intros Hin. apply list_elem_of_In in Hin. simpl in Hin.
    intuition discriminate.
Defined.

(** X18. The options form of an entry the setup step has just created, whose
    options are still empty, offers the unit id chosen at setup and, for
    each scan interval, the value of [DEFAULT_SCAN_INTERVALS]. *)
Theorem options_form_after_setup K net translations entries ui title d
    id hass_data :
  result_of (async_step_user K net translations entries (Some ui))
  = Returned (CreateEntry title d) →
  ∃ data_schema lowest,
    async_step_init K hass_data {| entry_id := id; data := d; options := ∅ |} None
    = (OptionsShowForm "init" data_schema None lowest, hass_data, [])
    ∧ vol.keys data_schema = CONF_UNIT_ID :: rate_keys
    ∧ ∀ it, it ∈ data_schema →
            (vol.item_key it = CONF_UNIT_ID →
             vol.item_default it = unit_id_of K ui
             ∧ 1 ≤ vol.item_default it ≤ 255)
            ∧ (vol.item_key it ∈ rate_keys →
               vol.item_default it = DEFAULT_SCAN_INTERVALS K (vol.item_key it)).
Proof.
  intros Hcreated.
  pose proof (step_cases K net translations entries ui) as Hcase.
  rewrite Hcreated in Hcase.
  inversion Hcase as [| | | | |Hport Hunit Hresolved Hdup Hprobe [Htitle Hd] Htrace|];
    subst d.
  eexists _, _. split; [reflexivity |]. split; [reflexivity |].
  intros it Hit. apply list_elem_of_In in Hit. simpl in Hit.
  destruct Hit as [<-|[<-|[<-|[<-|[<-|[]]]]]]; simpl; split;
    try (intros; discriminate);
    try (intros Hin; apply list_elem_of_In in Hin; simpl in Hin;
         intuition discriminate);
    try (intros _; reflexivity).
  intros _. split; [reflexivity |]. exact Hunit.
Qed.

Lemma options_form_after_setup_witness :
  ∃ data_schema lowest,
    async_step_init Examples.K0 ∅ MoreExamples.created None
    = (OptionsShowForm "init" data_schema None lowest, ∅, [])
    ∧ vol.keys data_schema = CONF_UNIT_ID :: rate_keys.
Proof.
  assert (result_of (async_step_user Examples.K0 Examples.healthy ∅ []
                       (Some Examples.in_range))
          = Returned (CreateEntry "Marstek Venus Modbus"
                        (new_entry_data (Some "marstek.local") 502 "v3" 1)))
    as Hcreated by (vm_compute; reflexivity).
  destruct (options_form_after_setup Examples.K0 Examples.healthy ∅ []
              Examples.in_range _ _ "entry-2" ∅ Hcreated)
    as (data_schema & lowest & Hform & Hkeys & _).
  exists data_schema, lowest. split; [exact Hform | exact Hkeys].
Defined.

(** X19. After a submission the schema accepts, a coordinator registered for
    the entry polls the unit id that the options of the entry now store. *)
Theorem coordinator_and_options_agree K hass_data config submitted c :
  only_fields submitted →
  hass_data !! entry_id config = Some c →
  ∃ config' hass_data' sent u,
    reconcile K hass_data config submitted = Some (config', hass_data', sent)
    ∧ options config' !! CONF_UNIT_ID = Some u
    ∧ client_unit_id <$> hass_data' !! entry_id config' = Some u
    ∧ 1 ≤ u ≤ 255.
Proof.
  intros Hfields Hc.
  rewrite (reconcile_accepts K hass_data config submitted Hfields).
  unfold async_step_init. rewrite Hc. simpl.
  rewrite (validated_unit_id K config submitted). simpl.
  set (u := vol.Clamp 1 255 _).
  assert (1 ≤ u ≤ 255) as Hu.
  { unfold u. rewrite Clamp_clamped by lia. unfold clamped. lia. }
  case_bool_decide as Hchanged.
  - eexists _, _, _, u. split; [reflexivity |]. simpl.
    split; [apply validated_unit_id |]. split; [| done].
    by rewrite lookup_insert_eq.
  - eexists _, _, _, u. split; [reflexivity |]. simpl.
    split; [apply validated_unit_id |]. split; [| done].
    rewrite lookup_insert_eq. simpl. f_equal.
    destruct (decide (u = client_unit_id c)) as [Heq|Hne]; [done |].
    by destruct Hchanged.
Qed.

Lemma coordinator_and_options_agree_witness :
  ∃ config' hass_data' sent u,
    reconcile Examples.K0 Examples.polling Examples.fresh_entry Examples.edited
    = Some (config', hass_data', sent)
    ∧ options config' !! CONF_UNIT_ID = Some u
    ∧ client_unit_id <$> hass_data' !! entry_id config' = Some u
    ∧ 1 ≤ u ≤ 255.
Proof.
  exact (coordinator_and_options_agree Examples.K0 Examples.polling
           Examples.fresh_entry Examples.edited {| client_unit_id := 1 |}
           edited_only_fields eq_refl).
Defined.

(** ** The re-authentication step *)

Import MarstekConfigFlowReauth.

(** X20. With a device version submitted and an entry registered, the step
    asks for one update, of the first registered entry, whatever the awaited
    call then does, return or raise: the new data it hands over are the old
    ones with the device version replaced, every other key (host, port,
    unit id) kept. *)
Theorem reauth_hands_over_new_version K update_entry entry rest d v :
  strs d !! CONF_DEVICE_VERSION = Some v →
  ∃ new_data,
    snd (async_step_reauth K update_entry (entry :: rest) (Some d))
    = [(the_entry entry, new_data)]
    ∧ strs new_data !! CONF_DEVICE_VERSION = Some v
    ∧ (∀ k, k ≠ CONF_DEVICE_VERSION →
            strs new_data !! k = strs (data (the_entry entry)) !! k)
    ∧ ints new_data = ints (data (the_entry entry)).
Proof.
  intros Hv.
  exists (with_device_version (data (the_entry entry)) (Some v)).
  unfold async_step_reauth. simpl. rewrite Hv.
  split; [by destruct (update_entry _ _) |].
  simpl. split; [apply lookup_insert_eq |]. split; [| reflexivity].
  intros k Hk. by rewrite lookup_insert_ne.
Qed.

Lemma reauth_hands_over_new_version_witness :
  ∃ new_data,
    snd (async_step_reauth Examples.K0
           (λ _ _, Raised (Examples.value_error "object bool can't be awaited"))
           [MoreExamples.titled "Venus"] (Some MoreExamples.chosen_version))
    = [(Examples.entry_1, new_data)]
    ∧ strs new_data !! CONF_DEVICE_VERSION = Some "v1/v2"
    ∧ (∀ k, k ≠ CONF_DEVICE_VERSION →
            strs new_data !! k = strs (data Examples.entry_1) !! k)
    ∧ ints new_data = ints (data Examples.entry_1).
Proof.
  exact (reauth_hands_over_new_version Examples.K0
           (λ _ _, Raised (Examples.value_error "object bool can't be awaited"))
           (MoreExamples.titled "Venus") [] MoreExamples.chosen_version "v1/v2"
           eq_refl).
Defined.

(** X21. When the update of the entry raises, whatever the exception, the
    step shows form [reauth] again with the error [unknown]. *)
Theorem reauth_failure_is_unknown K update_entry entry rest d e :
  (∀ new_data, update_entry (the_entry entry) new_data = Raised e) →
  ∃ default_version requested,
    async_step_reauth K update_entry (entry :: rest) (Some d)
    = (ReauthShowForm "reauth" default_version (Some "unknown"), requested).
Proof.
  intros Hupdate. unfold async_step_reauth. simpl. rewrite Hupdate.
  by eexists _, _.
Qed.

Lemma reauth_failure_is_unknown_witness :
  ∃ default_version requested,
    async_step_reauth Examples.K0
      (λ _ _, Raised (Examples.value_error "object bool can't be awaited"))
      [MoreExamples.titled "Venus"] (Some MoreExamples.chosen_version)
    = (ReauthShowForm "reauth" default_version (Some "unknown"), requested).
Proof.
  exact (reauth_failure_is_unknown Examples.K0
           (λ _ _, Raised (Examples.value_error "object bool can't be awaited"))
           (MoreExamples.titled "Venus") [] MoreExamples.chosen_version
           (Examples.value_error "object bool can't be awaited") (λ _, eq_refl)).
Defined.

(** X22. The step never asks for the update of an entry other than the first
    registered one, and asks for at most one update; without a submission,
    or with no entry registered, it asks for none and shows the form without
    an error. *)
Theorem reauth_touches_first_entry_only K update_entry entries submitted :
  (∀ e new_data,
     (e, new_data) ∈ snd (async_step_reauth K update_entry entries submitted) →
     ∃ entry, head entries = Some entry ∧ e = the_entry entry)
  ∧ (List.length (snd (async_step_reauth K update_entry entries submitted)) ≤ 1)%nat
  ∧ (submitted = None ∨ entries = [] →
     async_step_reauth K update_entry entries submitted
     = (ReauthShowForm "reauth" (MarstekConfigFlow.first_version K) None, [])).
Proof.
  unfold async_step_reauth.
  destruct submitted as [d|]; destruct entries as [|entry rest]; simpl;
    try (split; [by intros e nd ?%elem_of_nil | split; [lia | done]]).
  assert (∀ (e : config_entry) (nd x : pydict),
            (e, nd) ∈ [(the_entry entry, x)] →
            ∃ entry0, Some entry = Some entry0 ∧ e = the_entry entry0) as Hfirst.
  { intros e nd x [[= -> ->]|?%elem_of_nil]%elem_of_cons; [eauto | done]. }
  destruct (update_entry _ _) as [?|exc]; simpl;
    (split; [intros e nd; apply Hfirst | split; [lia | by intros [|]]]).
Qed.

Lemma reauth_touches_first_entry_only_witness :
  async_step_reauth Examples.K0 (λ _ _, Returned tt) []
    (Some MoreExamples.chosen_version)
  = (ReauthShowForm "reauth" "v1/v2" None, []).
Proof.
  destruct (reauth_touches_first_entry_only Examples.K0 (λ _ _, Returned tt) []
              (Some MoreExamples.chosen_version)) as (_ & _ & Hnone).
  apply Hnone. by right.
Defined.
